(** * Credential verification and role gating of the ALS admin console

    A shallow embedding of
    - [src/types/auth.ts]                       (module [auth]),
    - the login route handler [POST]            (module [LoginRoute]),
    - the students page and the protected layout (modules [StudentsPage],
      [ProtectedLayout]),
    - the admin management page                 (module [AdminManagementPage]),
    followed by the properties established about them. *)

From Stdlib Require Import String List Bool ZArith Lia.
Import ListNotations.
Open Scope string_scope.
Set Warnings "-register-all".

(** ** JavaScript values that reach the handlers *)

Module Js.

(** What [JSON.parse] can produce.  Object members are kept in source order.
    Of a number the handlers only ask whether it is zero, so numbers are
    kept as integers. *)
Inductive JSON : Type :=
| JNull
| JBool (b : bool)
| JNumber (n : Z)
| JString (s : string)
| JArray (items : list JSON)
| JObject (members : list (string * JSON)).

(** Member lookup in a parsed object: a later duplicate key overrides an
    earlier one. *)
Fixpoint member (key : string) (members : list (string * JSON)) : option JSON :=
  match members with
  | [] => None
  | (k, v) :: rest =>
      match member key rest with
      | Some later => Some later
      | None => if String.eqb k key then Some v else None
      end
  end.

(** A value read out of a parsed body; [None] is [undefined]. *)
Definition Value : Type := option JSON.

(** [v?.key] for a key that is not a built-in property of strings or arrays
    (the handlers read [email] and [password] only). *)
Definition prop (key : string) (v : JSON) : Value :=
  match v with
  | JObject members => member key members
  | _ => None
  end.

(** JavaScript truthiness, as tested by [!x] and [&&]. *)
Definition truthy (v : Value) : bool :=
  match v with
  | None => false
  | Some JNull => false
  | Some (JBool b) => b
  | Some (JNumber n) => negb (Z.eqb n 0)
  | Some (JString s) => negb (String.eqb s "")
  | Some (JArray _) => true
  | Some (JObject _) => true
  end.

Definition truthy_string (s : option string) : bool :=
  match s with
  | None => false
  | Some s => negb (String.eqb s "")
  end.

(** [a || b] on an optional string. *)
Definition or_else (a : option string) (b : string) : string :=
  match a with
  | Some s => if String.eqb s "" then b else s
  | None => b
  end.

Definition typeof (v : Value) : string :=
  match v with
  | None => "undefined"
  | Some JNull => "object"
  | Some (JBool _) => "boolean"
  | Some (JNumber _) => "number"
  | Some (JString _) => "string"
  | Some (JArray _) => "object"
  | Some (JObject _) => "object"
  end.

(** A thrown value: an [Error] instance, or anything else (of which the
    handlers only use [String(v)]). *)
Inductive Thrown : Type :=
| ErrorObject (name message : string) (stack : option string)
| NonError (asString : string).

(** [String(e)]; for an [Error] this is [Error.prototype.toString]. *)
Definition String_ (e : Thrown) : string :=
  match e with
  | ErrorObject name message _ =>
      if String.eqb name "" then message
      else if String.eqb message "" then name
      else name ++ ": " ++ message
  | NonError s => s
  end.

(** The outcome of an operation that may throw. *)
Definition Try (A : Type) : Type := (Thrown + A)%type.

End Js.
Import Js.

(** ** src/types/auth.ts *)

Module auth.

Inductive UserRole : Type := master_admin | admin.

Definition UserRole_eqb (a b : UserRole) : bool :=
  match a, b with
  | master_admin, master_admin => true
  | admin, admin => true
  | _, _ => false
  end.

Record User : Type := {
  _id : string;
  email : string;
  password : string;
  name : string;
  firstName : option string;
  lastName : option string;
  middleName : option string;
  gender : option string;
  birthday : option string;
  role : UserRole;
  assignedBarangayId : option string; (* Only for regular admins *)
  createdAt : string;
  updatedAt : string
}.

Record RegisterCredentials : Type := {
  rc_firstName : string;
  rc_middleName : option string;
  rc_lastName : string;
  rc_email : string;
  rc_password : string;
  rc_confirmPassword : string;
  rc_gender : option string;
  rc_birthday : option string;
  rc_role : option UserRole;
  rc_assignedBarangayId : option string;
  rc_acceptTerms : bool
}.

End auth.

(** ** The login route: [export async function POST(req: Request)] *)

Module LoginRoute.

(** The [users] collection as the handler uses it:
    [client.db("main").collection("users").find({ email }).toArray()]. *)
Record MongoClient : Type := {
  find_users_by_email : Value -> Try (list auth.User)
}.

(** Everything outside the handler that it consults. *)
Record Env : Type := {
  NODE_ENV : option string;
  (** [await clientPromise]: rejects, or resolves to a client or to a falsy
      value. *)
  clientPromise : Try (option MongoClient);
  (** [bcrypt.compareSync(password, hash)]. *)
  compareSync : Value -> string -> Try bool
}.

Record Request : Type := {
  json : Try JSON
}.

(** The object handed to [NextResponse.json]; a member whose value is
    [undefined] is not serialised, which [None] stands for. *)
Record ResponseBody : Type := {
  success : bool;
  error : option string;
  details : option string;
  data : option auth.User
}.

Record Response : Type := {
  status : Z;
  body : ResponseBody
}.

(** What the handler does besides answering, in order. *)
Inductive Effect : Type :=
| AwaitClient
| FindUsers (email : Value)
| ConsoleError (label : string) (e : Thrown).

Definition is_store_access (e : Effect) : bool :=
  match e with
  | AwaitClient | FindUsers _ => true
  | ConsoleError _ _ => false
  end.

Definition store_call_count (effects : list Effect) : nat :=
  length (filter is_store_access effects).

Definition failure (code : Z) (msg : string) : Response :=
  {| status := code;
     body := {| success := false; error := Some msg;
                details := None; data := None |} |}.

Definition failure_with_details (code : Z) (msg : string)
    (det : option string) : Response :=
  {| status := code;
     body := {| success := false; error := Some msg;
                details := det; data := None |} |}.

Definition ok (u : auth.User) : Response :=
  {| status := 200;
     body := {| success := true; error := None;
                details := None; data := Some u |} |}.

Definition development (env : Env) : bool :=
  match NODE_ENV env with
  | Some s => String.eqb s "development"
  | None => false
  end.

(** [process.env.NODE_ENV === "development" ? d : undefined] *)
Definition dev_only (env : Env) (d : string) : option string :=
  if development env then Some d else None.

(** [e instanceof Error ? e.message : String(e)] *)
Definition errorDetails (e : Thrown) : string :=
  match e with
  | ErrorObject _ message _ => message
  | NonError s => s
  end.

(** The outer [catch (error)] of the handler. *)
Definition on_unexpected (env : Env) (e : Thrown) : Response :=
  let errorMessage :=
    match e with
    | ErrorObject _ message _ => message
    | NonError _ => "Failed to Authenticate User"
    end in
  let errorStack :=
    match e with
    | ErrorObject _ _ stack => stack
    | NonError _ => None
    end in
  failure_with_details 500 errorMessage
    (dev_only env (or_else errorStack (String_ e))).

Definition POST (env : Env) (req : Request) : Response * list Effect :=
  match json req with
  | inl _parseError => (failure 400 "Invalid request body", [])
  | inr body =>
    let email := prop "email" body in
    if negb (truthy email) then (failure 400 "Email is required", [])
    else
    let password := prop "password" body in
    if negb (truthy password) then (failure 400 "Password is required", [])
    else
    let connection_failed (dbError : Thrown) :=
      (failure_with_details 500
         "Database connection failed. Please check your MongoDB configuration."
         (dev_only env (errorDetails dbError)),
       [AwaitClient; ConsoleError "MongoDB connection error:" dbError]) in
    match clientPromise env with
    | inl dbError => connection_failed dbError
    | inr None =>
        connection_failed
          (ErrorObject "Error" "MongoDB client is not initialized" None)
    | inr (Some client) =>
      match find_users_by_email client email with
      | inl queryError =>
          (failure_with_details 500 "Database query failed."
             (dev_only env (errorDetails queryError)),
           [AwaitClient; FindUsers email;
            ConsoleError "MongoDB query error:" queryError])
      | inr userData =>
        match userData with
        | [] => (failure 404 "User not found", [AwaitClient; FindUsers email])
        | first :: _ =>
          match compareSync env password (auth.password first) with
          | inl error =>
              (on_unexpected env error,
               [AwaitClient; FindUsers email;
                ConsoleError "Error authenticating user:" error])
          | inr isPasswordValid =>
              if negb isPasswordValid
              then (failure 401 "Invalid Password",
                    [AwaitClient; FindUsers email])
              else (ok first, [AwaitClient; FindUsers email])
          end
        end
      end
    end
  end.

End LoginRoute.

(** ** Records of [@/types] that the pages read *)

Module types.

(** A barangay (sub-region); the pages read [_id] and [name]. *)
Record Barangay : Type := {
  _id : string;
  name : string
}.

End types.

(** ** The students page: [StudentsPage] *)

Module StudentsPage.

(** [user?.role === 'admin' && user?.assignedBarangayId], as a condition. *)
Definition restricted (user : option auth.User) : bool :=
  match user with
  | Some u =>
      auth.UserRole_eqb (auth.role u) auth.admin
      && truthy_string (auth.assignedBarangayId u)
  | None => false
  end.

(** Filter barangays based on user role. *)
Definition filteredBarangays (user : option auth.User)
    (barangays : list types.Barangay) : list types.Barangay :=
  match user with
  | Some u =>
      if restricted user
      then filter
             (fun b => match auth.assignedBarangayId u with
                       | Some a => String.eqb (types._id b) a
                       | None => false
                       end)
             barangays
      else barangays
  | None => barangays
  end.

End StudentsPage.

(** ** The protected layout: [ProtectedLayout] *)

Module ProtectedLayout.

Record NavItem : Type := {
  name : string;
  href : string
}.

(** Navigation items for all users *)
Definition commonNavItems : list NavItem :=
  [ {| name := "Dashboard"; href := "/dashboard" |};
    {| name := "Student Master List"; href := "/students" |};
    {| name := "Student Score Summary"; href := "/progress" |};
    {| name := "Settings"; href := "/settings" |} ].

(** Navigation items only for master admin *)
Definition masterAdminNavItems : list NavItem :=
  [ {| name := "Admin Management"; href := "/admin" |} ].

Definition navItems (user : option auth.User) : list NavItem :=
  match user with
  | Some u =>
      if auth.UserRole_eqb (auth.role u) auth.master_admin
      then commonNavItems ++ masterAdminNavItems
      else commonNavItems
  | None => commonNavItems
  end.

(** The header title:
    [navItems.find(item => item.href === pathname)?.name || 'Dashboard']. *)
Definition pageTitle (user : option auth.User) (pathname : string) : string :=
  or_else
    (option_map name
       (find (fun item => String.eqb (href item) pathname) (navItems user)))
    "Dashboard".

(** The sidebar profile: [user?.name || 'Staff Name'], the role line and the
    barangay shown after it for an admin that has one. *)
Definition displayName (user : option auth.User) : string :=
  or_else (option_map auth.name user) "Staff Name".

Definition roleLabel (user : option auth.User) : string :=
  match user with
  | Some u =>
      if auth.UserRole_eqb (auth.role u) auth.master_admin
      then "Master Admin" else "Regular Admin"
  | None => "Regular Admin"
  end.

Definition barangayTag (user : option auth.User) : option string :=
  match user with
  | Some u =>
      if auth.UserRole_eqb (auth.role u) auth.admin
         && truthy_string (auth.assignedBarangayId u)
      then auth.assignedBarangayId u
      else None
  | None => None
  end.

(** What [handleLogout] asks of the auth store, the router and the console. *)
Inductive Event : Type :=
| Logout
| RouterPush (href : string)
| ConsoleError (label : string) (e : Thrown).

(** Handle logout; [logout] is the action of the auth store on the state
    [World] behind it. *)
Definition handleLogout {World : Type} (logout : World -> Try unit * World)
    (w : World) : World * list Event :=
  match logout w with
  | (inr _, w') => (w', [Logout; RouterPush "/login"])
  | (inl error, w') => (w', [Logout; ConsoleError "Logout error:" error])
  end.

End ProtectedLayout.

(** ** The admin management page: [AdminManagementPage] *)

Module AdminManagementPage.

(** The values of the edit form ([Partial<RegisterCredentials>] restricted to
    the fields the form declares). *)
Record EditForm : Type := {
  ef_firstName : option string;
  ef_middleName : option string;
  ef_lastName : option string;
  ef_email : option string;
  ef_gender : option string;
  ef_birthday : option string;
  ef_assignedBarangayId : option string
}.

(** The component state held by [useState]. *)
Record State : Type := {
  admins : list auth.User;
  isLoading : bool;
  isCreateDialogOpen : bool;
  isEditDialogOpen : bool;
  editingAdmin : option auth.User;
  isSubmitting : bool;
  submitError : option string
}.

Definition initialState : State :=
  {| admins := []; isLoading := true; isCreateDialogOpen := false;
     isEditDialogOpen := false; editingAdmin := None;
     isSubmitting := false; submitError := None |}.

(** What the page asks of its collaborators, in order. *)
Inductive Event : Type :=
| RouterPush (href : string)
| Confirm (message : string)
| FetchBarangays
| GetStoredUsers
| Register (data : auth.RegisterCredentials)
| UpdateStoredUser (data : EditForm) (_id : string)
| DeleteStoredUser (adminId : string)
| ConsoleError (label : string) (e : Thrown)
| ConsoleLog (admin : auth.User).

(** The controls the page puts on screen. *)
Inductive Control : Type :=
| AddNewAccountButton
| EditButton (admin : auth.User)
| DeleteButton (adminId : string).

(** What can happen to the page: it is mounted, the [user] of the auth store
    changes while it is mounted (which runs the redirect effect again), a
    form is submitted, a control is clicked. *)
Inductive Action : Type :=
| Mount
| UserChanged
| SubmitCreate (data : auth.RegisterCredentials)
| SubmitEdit (data : EditForm)
| Click (c : Control) (confirmed : bool).

Section Page.

(** The state behind [authService] and the student store; both live outside
    this page. *)
Variable World : Type.

Record Services : Type := {
  getStoredUsers : World -> Try (list auth.User) * World;
  register : auth.RegisterCredentials -> World -> Try unit * World;
  updateStoredUser : EditForm -> string -> World -> Try bool * World;
  deleteStoredUser : string -> World -> Try bool * World;
  fetchBarangays : World -> Try unit * World
}.

Variable svc : Services.

(** A run of page code: component state, outside world, events so far. *)
Record Run : Type := {
  state : State;
  world : World;
  events : list Event
}.

Definition Page (A : Type) : Type := Run -> A * Run.

Definition ret {A} (a : A) : Page A := fun r => (a, r).

Definition bind {A B} (m : Page A) (k : A -> Page B) : Page B :=
  fun r => let (a, r') := m r in k a r'.

Notation "x <- m ;; k" := (bind m (fun x => k))
  (at level 61, m at next level, right associativity).
Notation "m ;; k" := (bind m (fun _ => k))
  (at level 61, right associativity).

Definition emit (e : Event) : Page unit :=
  fun r => (tt, {| state := state r; world := world r;
                   events := events r ++ [e] |}).

Definition modify (f : State -> State) : Page unit :=
  fun r => (tt, {| state := f (state r); world := world r;
                   events := events r |}).

Definition get : Page State := fun r => (state r, r).

(** [await service(...)]: the call is recorded, the world moves on and the
    outcome (value or rejection) comes back. *)
Definition await {A} (e : Event) (call : World -> Try A * World)
  : Page (Try A) :=
  fun r => let (a, w) := call (world r) in
           (a, {| state := state r; world := w;
                  events := events r ++ [e] |}).

Definition setAdmins (v : list auth.User) : Page unit :=
  modify (fun s => {| admins := v; isLoading := isLoading s;
     isCreateDialogOpen := isCreateDialogOpen s;
     isEditDialogOpen := isEditDialogOpen s; editingAdmin := editingAdmin s;
     isSubmitting := isSubmitting s; submitError := submitError s |}).

Definition setIsLoading (v : bool) : Page unit :=
  modify (fun s => {| admins := admins s; isLoading := v;
     isCreateDialogOpen := isCreateDialogOpen s;
     isEditDialogOpen := isEditDialogOpen s; editingAdmin := editingAdmin s;
     isSubmitting := isSubmitting s; submitError := submitError s |}).

Definition setIsCreateDialogOpen (v : bool) : Page unit :=
  modify (fun s => {| admins := admins s; isLoading := isLoading s;
     isCreateDialogOpen := v;
     isEditDialogOpen := isEditDialogOpen s; editingAdmin := editingAdmin s;
     isSubmitting := isSubmitting s; submitError := submitError s |}).

Definition setIsEditDialogOpen (v : bool) : Page unit :=
  modify (fun s => {| admins := admins s; isLoading := isLoading s;
     isCreateDialogOpen := isCreateDialogOpen s;
     isEditDialogOpen := v; editingAdmin := editingAdmin s;
     isSubmitting := isSubmitting s; submitError := submitError s |}).

Definition setEditingAdmin (v : option auth.User) : Page unit :=
  modify (fun s => {| admins := admins s; isLoading := isLoading s;
     isCreateDialogOpen := isCreateDialogOpen s;
     isEditDialogOpen := isEditDialogOpen s; editingAdmin := v;
     isSubmitting := isSubmitting s; submitError := submitError s |}).

Definition setIsSubmitting (v : bool) : Page unit :=
  modify (fun s => {| admins := admins s; isLoading := isLoading s;
     isCreateDialogOpen := isCreateDialogOpen s;
     isEditDialogOpen := isEditDialogOpen s; editingAdmin := editingAdmin s;
     isSubmitting := v; submitError := submitError s |}).

Definition setSubmitError (v : option string) : Page unit :=
  modify (fun s => {| admins := admins s; isLoading := isLoading s;
     isCreateDialogOpen := isCreateDialogOpen s;
     isEditDialogOpen := isEditDialogOpen s; editingAdmin := editingAdmin s;
     isSubmitting := isSubmitting s; submitError := v |}).

(** [error instanceof Error ? error.message : fallback] *)
Definition messageOr (fallback : string) (error : Thrown) : string :=
  match error with
  | ErrorObject _ message _ => message
  | NonError _ => fallback
  end.

(** Redirect if not a master admin *)
Definition redirectEffect (user : option auth.User) : Page unit :=
  match user with
  | Some u =>
      if negb (auth.UserRole_eqb (auth.role u) auth.master_admin)
      then emit (RouterPush "/dashboard")
      else ret tt
  | None => ret tt
  end.

(** Load admins from storage *)
Definition loadAdmins : Page unit :=
  r <- await GetStoredUsers (getStoredUsers svc) ;;
  match r with
  | inr users => setAdmins users
  | inl error => emit (ConsoleError "Error loading admins:" error)
  end.

(** Load barangays and admins; a rejection of [fetchBarangays] is not caught
    and ends [loadData] there. *)
Definition loadData : Page unit :=
  setIsLoading true ;;
  r <- await FetchBarangays (fetchBarangays svc) ;;
  match r with
  | inr _ => loadAdmins ;; setIsLoading false
  | inl _ => ret tt
  end.

(** Handle create admin *)
Definition handleCreateAdmin (data : auth.RegisterCredentials) : Page unit :=
  setIsSubmitting true ;;
  setSubmitError None ;;
  r <- await (Register data) (register svc data) ;;
  match r with
  | inr _ => loadAdmins ;; setIsCreateDialogOpen false
  | inl error => setSubmitError (Some (messageOr "Failed to create admin" error))
  end ;;
  setIsSubmitting false.

(** Handle edit admin *)
Definition handleEditAdmin (data : EditForm) : Page unit :=
  s <- get ;;
  match editingAdmin s with
  | None => ret tt
  | Some editing =>
      setIsSubmitting true ;;
      setSubmitError None ;;
      r <- await (UpdateStoredUser data (auth._id editing))
                 (updateStoredUser svc data (auth._id editing)) ;;
      match r with
      | inr success =>
          if success
          then loadAdmins ;; setIsEditDialogOpen false ;; setEditingAdmin None
          else ret tt
      | inl error =>
          setSubmitError (Some (messageOr "Failed to update admin" error))
      end ;;
      setIsSubmitting false
  end.

(** Handle delete admin; [confirmed] is the answer to the [confirm] dialog. *)
Definition handleDeleteAdmin (adminId : string) (confirmed : bool)
  : Page unit :=
  emit (Confirm "Are you sure you want to delete this admin account?") ;;
  if negb confirmed then ret tt
  else
    r <- await (DeleteStoredUser adminId) (deleteStoredUser svc adminId) ;;
    match r with
    | inr success => if success then loadAdmins else ret tt
    | inl error => emit (ConsoleError "Error deleting admin:" error)
    end.

(** Open edit dialog *)
Definition openEditDialog (admin : auth.User) : Page unit :=
  setEditingAdmin (Some admin) ;;
  emit (ConsoleLog admin) ;;
  setIsEditDialogOpen true.

(** The action cell of one table row. *)
Definition rowControls (admin : auth.User) : list Control :=
  EditButton admin ::
  (if negb (auth.UserRole_eqb (auth.role admin) auth.master_admin)
   then [DeleteButton (auth._id admin)]
   else []).

(** The controls of the rendered page; the markup never reads [user]. *)
Definition render (s : State) : list Control :=
  AddNewAccountButton ::
  (if isLoading s then [] else flat_map rowControls (admins s)).

Definition onClick (c : Control) (confirmed : bool) : Page unit :=
  match c with
  | AddNewAccountButton => setIsCreateDialogOpen true
  | EditButton admin => openEditDialog admin
  | DeleteButton adminId => handleDeleteAdmin adminId confirmed
  end.

(** The component, for the signed-in [user] of the auth store. *)
Definition AdminManagementPage (user : option auth.User) (a : Action)
  : Page unit :=
  match a with
  | Mount => redirectEffect user ;; loadData
  | UserChanged => redirectEffect user
  | SubmitCreate data => handleCreateAdmin data
  | SubmitEdit data => handleEditAdmin data
  | Click c confirmed => onClick c confirmed
  end.

Definition start (w : World) : Run :=
  {| state := initialState; world := w; events := [] |}.

End Page.

Arguments getStoredUsers {World}.
Arguments register {World}.
Arguments updateStoredUser {World}.
Arguments deleteStoredUser {World}.
Arguments fetchBarangays {World}.
Arguments state {World}.
Arguments world {World}.
Arguments events {World}.
Arguments redirectEffect {World}.
Arguments loadAdmins {World}.
Arguments loadData {World}.
Arguments handleCreateAdmin {World}.
Arguments handleEditAdmin {World}.
Arguments handleDeleteAdmin {World}.
Arguments openEditDialog {World}.
Arguments onClick {World}.
Arguments AdminManagementPage {World}.
Arguments start {World}.

(** Get barangay name by ID *)
Definition getBarangayName (barangays : list types.Barangay)
    (barangayId : string) : string :=
  match find (fun b => String.eqb (types._id b) barangayId) barangays with
  | Some barangay => types.name barangay
  | None => "Unknown"
  end.

(** The role badge of a table row. *)
Definition roleBadge (admin : auth.User) : string :=
  if auth.UserRole_eqb (auth.role admin) auth.master_admin
  then "Master Admin" else "Regular Admin".

(** The "Assigned Barangay" cell of a table row. *)
Definition assignedBarangayCell (barangays : list types.Barangay)
    (admin : auth.User) : string :=
  if auth.UserRole_eqb (auth.role admin) auth.admin
     && truthy_string (auth.assignedBarangayId admin)
  then match auth.assignedBarangayId admin with
       | Some barangayId => getBarangayName barangays barangayId
       | None => "All Barangays"
       end
  else "All Barangays".

End AdminManagementPage.

(** ** The login form: [LoginForm] *)

Module LoginForm.

(** What [onSubmit] asks of the auth store, the window and the console. *)
Inductive Event (Values : Type) : Type :=
| ClearError
| Login (data : Values)
| Reload
| ConsoleError (label : string) (e : Thrown).

Arguments ClearError {Values}.
Arguments Login {Values}.
Arguments Reload {Values}.
Arguments ConsoleError {Values}.

(** Handle form submission; [Values] are the validated form values and
    [login] the action of the auth store on the state [World] behind it. *)
Definition onSubmit {Values World : Type}
    (login : Values -> World -> Try unit * World)
    (data : Values) (w : World) : World * list (Event Values) :=
  match login data w with
  | (inr _, w') => (w', [ClearError; Login data; Reload])
  | (inl error, w') =>
      (w', [ClearError; Login data; ConsoleError "Login error:" error])
  end.

End LoginForm.

(** ** Sample data on which the handlers are run *)

Module Sample.

Definition user (id mail hash : string) (r : auth.UserRole)
    (barangay : option string) : auth.User :=
  {| auth._id := id; auth.email := mail; auth.password := hash;
     auth.name := mail; auth.firstName := None; auth.lastName := None;
     auth.middleName := None; auth.gender := None; auth.birthday := None;
     auth.role := r; auth.assignedBarangayId := barangay;
     auth.createdAt := "2025-01-01T00:00:00.000Z";
     auth.updatedAt := "2025-01-01T00:00:00.000Z" |}.

Definition hashed (plaintext : string) : string := "hash(" ++ plaintext ++ ")".

Definition alice : auth.User :=
  user "u1" "a@x.com" (hashed "pw1") auth.admin (Some "BrgyA").

(** A second account stored under the same email. *)
Definition alice_twin : auth.User :=
  user "u2" "a@x.com" (hashed "pw2") auth.master_admin None.

Definition root : auth.User :=
  user "m1" "root@x.com" (hashed "secret") auth.master_admin None.

(** An admin account stored without an assigned barangay. *)
Definition unassigned : auth.User :=
  user "u3" "b@x.com" (hashed "pw3") auth.admin None.

(** A stand-in for [bcrypt.compareSync] on which examples run: like the
    library it raises on an argument that is not a string; hashing is
    replaced by [hashed]. *)
Definition compare (s : Value) (hash : string) : Try bool :=
  match s with
  | Some (JString plaintext) => inr (String.eqb (hashed plaintext) hash)
  | _ => inl (ErrorObject "Error"
                ("Illegal arguments: " ++ typeof s ++ ", string") None)
  end.

(** An in-memory [users] collection answering equality queries on [email]. *)
Definition collection (users : list auth.User) : LoginRoute.MongoClient :=
  {| LoginRoute.find_users_by_email := fun q =>
       match q with
       | Some (JString mail) =>
           inr (filter (fun u => String.eqb (auth.email u) mail) users)
       | _ => inr []
       end |}.

Definition env (mode : string) (users : list auth.User) : LoginRoute.Env :=
  {| LoginRoute.NODE_ENV := Some mode;
     LoginRoute.clientPromise := inr (Some (collection users));
     LoginRoute.compareSync := compare |}.

Definition credentials (mail pass : JSON) : LoginRoute.Request :=
  {| LoginRoute.json :=
       inr (JObject [("email", mail); ("password", pass)]) |}.

Definition BrgyA : types.Barangay :=
  {| types._id := "BrgyA"; types.name := "Barangay A" |}.

Definition BrgyB : types.Barangay :=
  {| types._id := "BrgyB"; types.name := "Barangay B" |}.

Definition newcomer : auth.RegisterCredentials :=
  {| auth.rc_firstName := "New"; auth.rc_middleName := None;
     auth.rc_lastName := "Comer"; auth.rc_email := "n@x.com";
     auth.rc_password := "pw"; auth.rc_confirmPassword := "pw";
     auth.rc_gender := None; auth.rc_birthday := None;
     auth.rc_role := Some auth.master_admin;
     auth.rc_assignedBarangayId := None; auth.rc_acceptTerms := true |}.

(** An in-memory stand-in for [authService] and the student store: the world
    is the list of stored users. *)
Definition services : AdminManagementPage.Services (list auth.User) :=
  {| AdminManagementPage.getStoredUsers := fun w => (inr w, w);
     AdminManagementPage.register := fun _ w => (inr tt, w);
     AdminManagementPage.updateStoredUser := fun _ _ w => (inr true, w);
     AdminManagementPage.deleteStoredUser := fun id w =>
       (inr true,
        filter (fun u => negb (String.eqb (auth._id u) id)) w);
     AdminManagementPage.fetchBarangays := fun w => (inr tt, w) |}.

(** A store whose connection is refused. *)
Definition offline (mode : string) : LoginRoute.Env :=
  {| LoginRoute.NODE_ENV := Some mode;
     LoginRoute.clientPromise := inl (NonError "ECONNREFUSED");
     LoginRoute.compareSync := compare |}.

(** A connected store whose every query fails. *)
Definition broken (mode : string) : LoginRoute.Env :=
  {| LoginRoute.NODE_ENV := Some mode;
     LoginRoute.clientPromise :=
       inr (Some {| LoginRoute.find_users_by_email := fun _ =>
                      inl (ErrorObject "MongoServerError" "cursor killed"
                             (Some "at Cursor.next")) |});
     LoginRoute.compareSync := compare |}.

Definition loaded (users : list auth.User) : AdminManagementPage.State :=
  {| AdminManagementPage.admins := users;
     AdminManagementPage.isLoading := false;
     AdminManagementPage.isCreateDialogOpen := false;
     AdminManagementPage.isEditDialogOpen := false;
     AdminManagementPage.editingAdmin := None;
     AdminManagementPage.isSubmitting := false;
     AdminManagementPage.submitError := None |}.

(** [authService] with every call rejected. *)
Definition refusing : AdminManagementPage.Services (list auth.User) :=
  {| AdminManagementPage.getStoredUsers := fun w =>
       (inl (NonError "offline"), w);
     AdminManagementPage.register := fun _ w =>
       (inl (ErrorObject "Error" "Email already exists" None), w);
     AdminManagementPage.updateStoredUser := fun _ _ w => (inr false, w);
     AdminManagementPage.deleteStoredUser := fun _ w => (inr false, w);
     AdminManagementPage.fetchBarangays := fun w =>
       (inl (NonError "offline"), w) |}.

Definition edits : AdminManagementPage.EditForm :=
  {| AdminManagementPage.ef_firstName := Some "Alice";
     AdminManagementPage.ef_middleName := None;
     AdminManagementPage.ef_lastName := Some "A";
     AdminManagementPage.ef_email := Some "a@x.com";
     AdminManagementPage.ef_gender := None;
     AdminManagementPage.ef_birthday := None;
     AdminManagementPage.ef_assignedBarangayId := Some "BrgyB" |}.

End Sample.

(** * Properties of the login route *)

Section LoginRouteFacts.

Import LoginRoute.

Example login_ok :
  fst (POST (Sample.env "production" [Sample.alice])
         (Sample.credentials (JString "a@x.com") (JString "pw1")))
  = ok Sample.alice.
Proof. reflexivity. Qed.

Example login_wrong_password :
  fst (POST (Sample.env "production" [Sample.alice])
         (Sample.credentials (JString "a@x.com") (JString "wrong")))
  = failure 401 "Invalid Password".
Proof. reflexivity. Qed.

Example login_nobody :
  fst (POST (Sample.env "production" [Sample.alice])
         (Sample.credentials (JString "nobody@x.com") (JString "pw1")))
  = failure 404 "User not found".
Proof. reflexivity. Qed.

Lemma empty_string_is_falsy : truthy (Some (JString "")) = false.
Proof. reflexivity. Qed.

Lemma nonempty_string_is_truthy (s : string) :
  s <> "" -> truthy (Some (JString s)) = true.
Proof.
  intros Hs. simpl. destruct (String.eqb_spec s ""); [contradiction | reflexivity].
Qed.

(** The handler up to the lookup: with both fields truthy and a connected
    client, the answer is decided by the lookup and the comparison. *)
Lemma POST_after_validation (env : Env) (client : MongoClient) (b : JSON) :
  clientPromise env = inr (Some client) ->
  truthy (prop "email" b) = true ->
  truthy (prop "password" b) = true ->
  POST env {| json := inr b |} =
  match find_users_by_email client (prop "email" b) with
  | inl queryError =>
      (failure_with_details 500 "Database query failed."
         (dev_only env (errorDetails queryError)),
       [AwaitClient; FindUsers (prop "email" b);
        ConsoleError "MongoDB query error:" queryError])
  | inr [] =>
      (failure 404 "User not found", [AwaitClient; FindUsers (prop "email" b)])
  | inr (first :: _) =>
      match compareSync env (prop "password" b) (auth.password first) with
      | inl error =>
          (on_unexpected env error,
           [AwaitClient; FindUsers (prop "email" b);
            ConsoleError "Error authenticating user:" error])
      | inr true => (ok first, [AwaitClient; FindUsers (prop "email" b)])
      | inr false =>
          (failure 401 "Invalid Password",
           [AwaitClient; FindUsers (prop "email" b)])
      end
  end.
Proof.
  intros Hclient Hemail Hpassword.
  unfold POST. cbn [json].
  rewrite Hemail, Hpassword. cbn [negb].
  rewrite Hclient.
  destruct (find_users_by_email client (prop "email" b)) as [e | [| first rest]];
    try reflexivity.
  destruct (compareSync env (prop "password" b) (auth.password first))
    as [e | [|]]; reflexivity.
Qed.

(** What the first match and the comparison make of a request. *)
Lemma POST_first_match (env : Env) (client : MongoClient) (b : JSON)
    (u : auth.User) (rest : list auth.User) :
  clientPromise env = inr (Some client) ->
  truthy (prop "email" b) = true ->
  truthy (prop "password" b) = true ->
  find_users_by_email client (prop "email" b) = inr (u :: rest) ->
  let answer := fst (POST env {| json := inr b |}) in
  let verdict := compareSync env (prop "password" b) (auth.password u) in
  (answer = ok u <-> verdict = inr true) /\
  (success (body answer) = true <-> verdict = inr true) /\
  (verdict = inr false -> answer = failure 401 "Invalid Password").
Proof.
  intros Hclient Hemail Hpassword Hfind. cbv zeta.
  rewrite (POST_after_validation env client b Hclient Hemail Hpassword), Hfind.
  destruct (compareSync env (prop "password" b) (auth.password u))
    as [e | [|]]; cbn [fst].
  - repeat split; intros H; discriminate H.
  - repeat split; intros H; try reflexivity; discriminate H.
  - repeat split; intros H; try reflexivity; discriminate H.
Qed.

(** The [details] member is only ever filled in development. *)
Lemma POST_details_need_development (env : Env) (req : Request) :
  development env = false -> details (body (fst (POST env req))) = None.
Proof.
  intros Hdev. unfold POST.
  destruct (json req) as [e | b]; [reflexivity |].
  destruct (truthy (prop "email" b)); [| reflexivity].
  destruct (truthy (prop "password" b)); [| reflexivity].
  cbn [negb].
  destruct (clientPromise env) as [e | [client |]];
    [ | | ]; try (cbn; unfold dev_only; rewrite Hdev; reflexivity).
  destruct (find_users_by_email client (prop "email" b)) as [e | [| first rest]];
    try reflexivity; try (cbn; unfold dev_only; rewrite Hdev; reflexivity).
  destruct (compareSync env (prop "password" b) (auth.password first))
    as [e | [|]]; try reflexivity.
  cbn. unfold dev_only. rewrite Hdev. reflexivity.
Qed.

(** A rejected or missing connection answers with a fixed message. *)
Lemma POST_connection_failure (env : Env) (b : JSON) :
  truthy (prop "email" b) = true ->
  truthy (prop "password" b) = true ->
  (forall client, clientPromise env <> inr (Some client)) ->
  exists dbError,
    fst (POST env {| json := inr b |})
    = failure_with_details 500
        "Database connection failed. Please check your MongoDB configuration."
        (dev_only env (errorDetails dbError)).
Proof.
  intros Hemail Hpassword Hnone. unfold POST. cbn [json].
  rewrite Hemail, Hpassword. cbn [negb].
  destruct (clientPromise env) as [e | [client |]].
  - exists e. reflexivity.
  - exfalso. apply (Hnone client). reflexivity.
  - eexists. reflexivity.
Qed.

(** A failed query answers with a fixed message. *)
Lemma POST_query_failure (env : Env) (client : MongoClient) (b : JSON)
    (queryError : Thrown) :
  clientPromise env = inr (Some client) ->
  truthy (prop "email" b) = true ->
  truthy (prop "password" b) = true ->
  find_users_by_email client (prop "email" b) = inl queryError ->
  fst (POST env {| json := inr b |})
  = failure_with_details 500 "Database query failed."
      (dev_only env (errorDetails queryError)).
Proof.
  intros Hclient Hemail Hpassword Hfind.
  rewrite (POST_after_validation env client b Hclient Hemail Hpassword), Hfind.
  reflexivity.
Qed.

(** C10.  A request whose body cannot be parsed as JSON is answered with
    status 400 and the error "Invalid request body"; no field is looked at
    and nothing is asked of the store (no effect at all takes place),
    whatever the environment. *)
Theorem POST_unparsable_body :
  forall (env : Env) (parseError : Thrown),
    POST env {| json := inl parseError |}
    = (failure 400 "Invalid request body", [])
    /\ store_call_count (snd (POST env {| json := inl parseError |})) = 0%nat.
Proof.
  intros env parseError. split; reflexivity.
Qed.

(** C7.  When the email or the password of a parsed body is empty (or falsy
    in any other way: missing, null, false, zero), the handler answers with
    a 400 validation failure and has not touched the store: it performs no
    effect at all, so the store call count is zero. *)
Theorem POST_missing_credentials_touch_no_store :
  forall (env : Env) (b : JSON),
    truthy (prop "email" b) = false \/ truthy (prop "password" b) = false ->
    let result := POST env {| json := inr b |} in
    (fst result = failure 400 "Email is required"
     \/ fst result = failure 400 "Password is required")
    /\ snd result = []
    /\ store_call_count (snd result) = 0%nat.
Proof.
  intros env b H. cbv zeta. unfold POST. cbn [json].
  destruct (truthy (prop "email" b)) eqn:Hemail; cbn [negb].
  - destruct H as [H | H]; [discriminate H |].
    rewrite H. cbn. auto.
  - cbn. auto.
Qed.

(** The two requests named by the specification: an empty email, and an
    empty password. *)
Lemma POST_missing_credentials_touch_no_store_witness :
  (let result := POST (Sample.env "production" [Sample.alice])
                   (Sample.credentials (JString "") (JString "x")) in
   (fst result = failure 400 "Email is required"
    \/ fst result = failure 400 "Password is required")
   /\ snd result = []
   /\ store_call_count (snd result) = 0%nat)
  /\
  (let result := POST (Sample.env "production" [Sample.alice])
                   (Sample.credentials (JString "x@x.com") (JString "")) in
   (fst result = failure 400 "Email is required"
    \/ fst result = failure 400 "Password is required")
   /\ snd result = []
   /\ store_call_count (snd result) = 0%nat).
Proof.
  split.
  - apply (POST_missing_credentials_touch_no_store
             (Sample.env "production" [Sample.alice])
             (JObject [("email", JString ""); ("password", JString "x")])).
    left. reflexivity.
  - apply (POST_missing_credentials_touch_no_store
             (Sample.env "production" [Sample.alice])
             (JObject [("email", JString "x@x.com"); ("password", JString "")])).
    right. reflexivity.
Defined.

(** C5, as stated, at an email that is not in the store and the empty
    password: the lookup would find nothing, yet the answer is the 400
    validation failure, not the 404 of a missing user. *)
Lemma not_found_needs_a_password :
  let env := Sample.env "production" [Sample.alice] in
  "nobody@x.com" <> ""
  /\ find_users_by_email (Sample.collection [Sample.alice])
       (Some (JString "nobody@x.com")) = inr []
  /\ fst (POST env (Sample.credentials (JString "nobody@x.com") (JString "")))
     = failure 400 "Password is required"
  /\ fst (POST env (Sample.credentials (JString "nobody@x.com") (JString "")))
     <> failure 404 "User not found".
Proof.
  cbv zeta. repeat split; try reflexivity; discriminate.
Qed.

(** C5, amended.  With a connected store, a non-empty email [E] and a
    non-empty password [P]: if the lookup of [E] finds no account the answer
    is 404 "User not found"; if it finds exactly one account [u], the answer
    is the success response iff [compareSync P (password u)] is true, and it
    is 401 "Invalid Password" when the comparison is false. *)
Theorem POST_lookup_then_verify :
  forall (env : Env) (client : MongoClient) (b : JSON) (E P : string),
    clientPromise env = inr (Some client) ->
    prop "email" b = Some (JString E) ->
    prop "password" b = Some (JString P) ->
    E <> "" -> P <> "" ->
    let answer := fst (POST env {| json := inr b |}) in
    (find_users_by_email client (Some (JString E)) = inr [] ->
       answer = failure 404 "User not found")
    /\
    (forall u : auth.User,
       find_users_by_email client (Some (JString E)) = inr [u] ->
       let verdict := compareSync env (Some (JString P)) (auth.password u) in
       (answer = ok u <-> verdict = inr true)
       /\ (success (body answer) = true <-> verdict = inr true)
       /\ (verdict = inr false -> answer = failure 401 "Invalid Password")).
Proof.
  intros env client b E P Hclient HE HP HEne HPne. cbv zeta.
  assert (Hemail : truthy (prop "email" b) = true)
    by (rewrite HE; apply nonempty_string_is_truthy; exact HEne).
  assert (Hpassword : truthy (prop "password" b) = true)
    by (rewrite HP; apply nonempty_string_is_truthy; exact HPne).
  split.
  - intros Hfind.
    rewrite (POST_after_validation env client b Hclient Hemail Hpassword).
    rewrite HE, Hfind. reflexivity.
  - intros u Hfind.
    rewrite <- HE in Hfind. rewrite <- HP.
    exact (POST_first_match env client b u [] Hclient Hemail Hpassword Hfind).
Qed.

(** The scenario of the specification: one stored account, its password,
    a wrong password, and an unknown email. *)
Lemma POST_lookup_then_verify_witness :
  let env := Sample.env "production" [Sample.alice] in
  fst (POST env (Sample.credentials (JString "nobody@x.com") (JString "pw1")))
  = failure 404 "User not found"
  /\ fst (POST env (Sample.credentials (JString "a@x.com") (JString "pw1")))
     = ok Sample.alice
  /\ fst (POST env (Sample.credentials (JString "a@x.com") (JString "wrong")))
     = failure 401 "Invalid Password".
Proof.
  cbv zeta.
  pose proof (POST_lookup_then_verify
    (Sample.env "production" [Sample.alice]) (Sample.collection [Sample.alice])
    (JObject [("email", JString "nobody@x.com"); ("password", JString "pw1")])
    "nobody@x.com" "pw1" eq_refl eq_refl eq_refl
    ltac:(discriminate) ltac:(discriminate)) as [Hnobody _].
  pose proof (POST_lookup_then_verify
    (Sample.env "production" [Sample.alice]) (Sample.collection [Sample.alice])
    (JObject [("email", JString "a@x.com"); ("password", JString "pw1")])
    "a@x.com" "pw1" eq_refl eq_refl eq_refl
    ltac:(discriminate) ltac:(discriminate)) as [_ Hright].
  pose proof (POST_lookup_then_verify
    (Sample.env "production" [Sample.alice]) (Sample.collection [Sample.alice])
    (JObject [("email", JString "a@x.com"); ("password", JString "wrong")])
    "a@x.com" "wrong" eq_refl eq_refl eq_refl
    ltac:(discriminate) ltac:(discriminate)) as [_ Hwrong].
  split; [| split].
  - apply Hnobody. reflexivity.
  - apply (Hright Sample.alice); reflexivity.
  - apply (Hwrong Sample.alice); reflexivity.
Defined.

(** C6, as stated, at an email stored twice: the answer is not a 500 failure
    but the success response carrying the first of the two accounts. *)
Lemma duplicate_email_first_match_wins :
  let env := Sample.env "production" [Sample.alice; Sample.alice_twin] in
  find_users_by_email (Sample.collection [Sample.alice; Sample.alice_twin])
    (Some (JString "a@x.com")) = inr [Sample.alice; Sample.alice_twin]
  /\ fst (POST env (Sample.credentials (JString "a@x.com") (JString "pw1")))
     = ok Sample.alice
  /\ status (fst (POST env
               (Sample.credentials (JString "a@x.com") (JString "pw1"))))
     <> 500%Z.
Proof.
  cbv zeta. repeat split; try reflexivity; discriminate.
Qed.

(** C6, amended.  When the lookup returns several accounts, the handler
    verifies the password against the first one returned and ignores the
    others: the answer is the success response for that first account iff
    the comparison with its hash is true, and 401 "Invalid Password" when
    that comparison is false. *)
Theorem POST_first_of_several :
  forall (env : Env) (client : MongoClient) (b : JSON)
         (u v : auth.User) (rest : list auth.User),
    clientPromise env = inr (Some client) ->
    truthy (prop "email" b) = true ->
    truthy (prop "password" b) = true ->
    find_users_by_email client (prop "email" b) = inr (u :: v :: rest) ->
    let answer := fst (POST env {| json := inr b |}) in
    let verdict := compareSync env (prop "password" b) (auth.password u) in
    (answer = ok u <-> verdict = inr true)
    /\ (success (body answer) = true <-> verdict = inr true)
    /\ (verdict = inr false -> answer = failure 401 "Invalid Password").
Proof.
  intros env client b u v rest Hclient Hemail Hpassword Hfind.
  exact (POST_first_match env client b u (v :: rest)
           Hclient Hemail Hpassword Hfind).
Qed.

Lemma POST_first_of_several_witness :
  let env := Sample.env "production" [Sample.alice; Sample.alice_twin] in
  fst (POST env (Sample.credentials (JString "a@x.com") (JString "pw2")))
  = failure 401 "Invalid Password".
Proof.
  cbv zeta.
  apply (POST_first_of_several
    (Sample.env "production" [Sample.alice; Sample.alice_twin])
    (Sample.collection [Sample.alice; Sample.alice_twin])
    (JObject [("email", JString "a@x.com"); ("password", JString "pw2")])
    Sample.alice Sample.alice_twin []); reflexivity.
Defined.

(** C1, as stated, at a successful login: the account view in the response
    carries the stored password hash. *)
Lemma login_success_exposes_password :
  let answer :=
    fst (POST (Sample.env "production" [Sample.alice])
           (Sample.credentials (JString "a@x.com") (JString "pw1"))) in
  success (body answer) = true
  /\ option_map auth.password (data (body answer))
     = Some (Sample.hashed "pw1")
  /\ auth.password Sample.alice = Sample.hashed "pw1".
Proof.
  cbv zeta. repeat split; reflexivity.
Qed.

(** C1, amended.  Every success response of the handler is the status-200
    answer whose [data] is the first account returned by the lookup, exactly
    as stored: every field of the stored account, the [password] hash
    included, is in the response. *)
Theorem POST_success_returns_stored_user :
  forall (env : Env) (req : Request),
    success (body (fst (POST env req))) = true ->
    exists (client : MongoClient) (b : JSON) (u : auth.User)
           (rest : list auth.User),
      json req = inr b
      /\ clientPromise env = inr (Some client)
      /\ find_users_by_email client (prop "email" b) = inr (u :: rest)
      /\ compareSync env (prop "password" b) (auth.password u) = inr true
      /\ fst (POST env req) = ok u
      /\ data (body (fst (POST env req))) = Some u
      /\ option_map auth.password (data (body (fst (POST env req))))
         = Some (auth.password u).
Proof.
  intros env req. unfold POST.
  destruct (json req) as [e | b]; [intros H; discriminate H |].
  destruct (truthy (prop "email" b)); [| intros H; discriminate H].
  destruct (truthy (prop "password" b)); [| intros H; discriminate H].
  cbn [negb].
  destruct (clientPromise env) as [e | [client |]];
    try (intros H; discriminate H).
  destruct (find_users_by_email client (prop "email" b))
    as [e | [| u rest]] eqn:Hfind; try (intros H; discriminate H).
  destruct (compareSync env (prop "password" b) (auth.password u))
    as [e | [|]] eqn:Hcmp; try (intros H; discriminate H).
  intros _. exists client, b, u, rest.
  repeat split; reflexivity || assumption.
Qed.

Lemma POST_success_returns_stored_user_witness :
  exists (client : MongoClient) (b : JSON) (u : auth.User)
         (rest : list auth.User),
    let env := Sample.env "production" [Sample.alice] in
    let req := Sample.credentials (JString "a@x.com") (JString "pw1") in
    json req = inr b
    /\ clientPromise env = inr (Some client)
    /\ find_users_by_email client (prop "email" b) = inr (u :: rest)
    /\ compareSync env (prop "password" b) (auth.password u) = inr true
    /\ fst (POST env req) = ok u
    /\ data (body (fst (POST env req))) = Some u
    /\ option_map auth.password (data (body (fst (POST env req))))
       = Some (auth.password u).
Proof.
  apply (POST_success_returns_stored_user
           (Sample.env "production" [Sample.alice])
           (Sample.credentials (JString "a@x.com") (JString "pw1"))).
  reflexivity.
Defined.

(** Whatever [compareSync] throws as an [Error] on the first match, its
    message becomes the [error] of the answer, in every environment. *)
Lemma POST_unexpected_fault_message (env : Env) (client : MongoClient)
    (b : JSON) (u : auth.User) (rest : list auth.User)
    (name message : string) (stack : option string) :
  clientPromise env = inr (Some client) ->
  truthy (prop "email" b) = true ->
  truthy (prop "password" b) = true ->
  find_users_by_email client (prop "email" b) = inr (u :: rest) ->
  compareSync env (prop "password" b) (auth.password u)
  = inl (ErrorObject name message stack) ->
  status (fst (POST env {| json := inr b |})) = 500%Z
  /\ error (body (fst (POST env {| json := inr b |}))) = Some message.
Proof.
  intros Hclient Hemail Hpassword Hfind Hcmp.
  rewrite (POST_after_validation env client b Hclient Hemail Hpassword).
  rewrite Hfind, Hcmp. split; reflexivity.
Qed.

(** C9, at a request whose password is the number 5 for a stored account, in
    production: the comparison raises, and the 500 answer carries the raised
    error's own message as [error], where a connection or query failure
    carries a fixed message; [details] is absent. *)
Theorem unexpected_fault_message_reaches_production :
  let env := Sample.env "production" [Sample.alice] in
  let result := POST env (Sample.credentials (JString "a@x.com") (JNumber 5)) in
  development env = false
  /\ compareSync env (Some (JNumber 5)) (auth.password Sample.alice)
     = inl (ErrorObject "Error" "Illegal arguments: number, string" None)
  /\ fst result
     = failure_with_details 500 "Illegal arguments: number, string" None
  /\ snd result
     = [AwaitClient; FindUsers (Some (JString "a@x.com"));
        ConsoleError "Error authenticating user:"
          (ErrorObject "Error" "Illegal arguments: number, string" None)].
Proof.
  cbv zeta. repeat split; reflexivity.
Qed.

End LoginRouteFacts.

(** * Properties of the students page *)

Section StudentsPageFacts.

Import StudentsPage.

Example alice_sees_her_barangay :
  filteredBarangays (Some Sample.alice) [Sample.BrgyA; Sample.BrgyB]
  = [Sample.BrgyA].
Proof. reflexivity. Qed.

Lemma restricted_admin (u : auth.User) (a : string) :
  auth.role u = auth.admin ->
  auth.assignedBarangayId u = Some a ->
  a <> "" ->
  restricted (Some u) = true.
Proof.
  intros Hrole Hassigned Hne. unfold restricted.
  rewrite Hrole, Hassigned. simpl.
  destruct (String.eqb_spec a ""); [contradiction | reflexivity].
Qed.

Lemma filteredBarangays_admin (u : auth.User) (a : string)
    (barangays : list types.Barangay) :
  auth.role u = auth.admin ->
  auth.assignedBarangayId u = Some a ->
  a <> "" ->
  filteredBarangays (Some u) barangays
  = filter (fun b => String.eqb (types._id b) a) barangays.
Proof.
  intros Hrole Hassigned Hne. unfold filteredBarangays.
  rewrite (restricted_admin u a Hrole Hassigned Hne), Hassigned.
  reflexivity.
Qed.

(** Among barangays with pairwise distinct ids, filtering on the id of one
    of them leaves that one alone. *)
Lemma filter_unique_id (a : string) (b0 : types.Barangay)
    (barangays : list types.Barangay) :
  NoDup (map types._id barangays) ->
  In b0 barangays ->
  types._id b0 = a ->
  filter (fun b => String.eqb (types._id b) a) barangays = [b0].
Proof.
  intros Hnodup Hin Hid.
  induction barangays as [| b rest IH]; [contradiction |].
  inversion Hnodup as [| x xs Hfresh Hrest]; subst x xs.
  cbn [filter].
  destruct Hin as [Heq | Hin].
  - subst b. rewrite Hid, String.eqb_refl. f_equal.
    assert (Hnone : forall c, In c rest -> String.eqb (types._id c) a = false).
    { intros c Hc. apply String.eqb_neq. intros Hca.
      apply Hfresh. rewrite Hid, <- Hca. apply in_map. exact Hc. }
    clear IH Hnodup Hrest Hfresh.
    induction rest as [| c rest' IH']; [reflexivity |].
    cbn [filter]. rewrite (Hnone c (or_introl eq_refl)).
    apply IH'. intros d Hd. apply Hnone. right. exact Hd.
  - destruct (String.eqb_spec (types._id b) a) as [Hba | Hba].
    + exfalso. apply Hfresh. rewrite Hba, <- Hid. apply in_map. exact Hin.
    + apply IH; assumption.
Qed.

(** C3.  For an admin with an assigned (non-empty) barangay id [a], the
    barangays shown are exactly those of the list whose id is [a], which is
    the single assigned barangay when ids are distinct and it is listed; for
    a master admin the whole list is shown. *)
Theorem filteredBarangays_scoping :
  forall (u : auth.User) (barangays : list types.Barangay),
    (forall a : string,
       auth.role u = auth.admin ->
       auth.assignedBarangayId u = Some a ->
       a <> "" ->
       (forall b, In b (filteredBarangays (Some u) barangays)
                  <-> In b barangays /\ types._id b = a)
       /\ (forall b0, NoDup (map types._id barangays) ->
                      In b0 barangays -> types._id b0 = a ->
                      filteredBarangays (Some u) barangays = [b0]))
    /\ (auth.role u = auth.master_admin ->
        filteredBarangays (Some u) barangays = barangays).
Proof.
  intros u barangays. split.
  - intros a Hrole Hassigned Hne.
    rewrite (filteredBarangays_admin u a barangays Hrole Hassigned Hne).
    split.
    + intros b. rewrite filter_In, String.eqb_eq. reflexivity.
    + intros b0. apply filter_unique_id.
  - intros Hrole. unfold filteredBarangays, restricted.
    rewrite Hrole. reflexivity.
Qed.

Lemma filteredBarangays_scoping_witness :
  filteredBarangays (Some Sample.alice) [Sample.BrgyA; Sample.BrgyB]
  = [Sample.BrgyA]
  /\ filteredBarangays (Some Sample.root) [Sample.BrgyA; Sample.BrgyB]
     = [Sample.BrgyA; Sample.BrgyB].
Proof.
  destruct (filteredBarangays_scoping Sample.alice [Sample.BrgyA; Sample.BrgyB])
    as [Hadmin _].
  destruct (filteredBarangays_scoping Sample.root [Sample.BrgyA; Sample.BrgyB])
    as [_ Hmaster].
  split.
  - destruct (Hadmin "BrgyA" eq_refl eq_refl ltac:(discriminate)) as [_ Hone].
    apply Hone.
    + repeat constructor; simpl; intuition discriminate.
    + left. reflexivity.
    + reflexivity.
  - apply Hmaster. reflexivity.
Defined.

(** C4, as stated, at an admin stored without an assigned barangay (and at
    one whose assignment is the empty string): every barangay is shown. *)
Lemma unassigned_admin_sees_everything :
  auth.role Sample.unassigned = auth.admin
  /\ auth.assignedBarangayId Sample.unassigned = None
  /\ filteredBarangays (Some Sample.unassigned) [Sample.BrgyA; Sample.BrgyB]
     = [Sample.BrgyA; Sample.BrgyB]
  /\ filteredBarangays
       (Some (Sample.user "u4" "c@x.com" "h" auth.admin (Some "")))
       [Sample.BrgyA; Sample.BrgyB]
     = [Sample.BrgyA; Sample.BrgyB].
Proof.
  repeat split; reflexivity.
Qed.

(** C4, amended.  For an admin whose assigned barangay is absent or empty,
    the page shows the whole barangay list, as it does for a master admin. *)
Theorem filteredBarangays_without_assignment :
  forall (u : auth.User) (barangays : list types.Barangay),
    auth.role u = auth.admin ->
    auth.assignedBarangayId u = None \/ auth.assignedBarangayId u = Some "" ->
    filteredBarangays (Some u) barangays = barangays.
Proof.
  intros u barangays Hrole Hassigned.
  unfold filteredBarangays, restricted. rewrite Hrole.
  destruct Hassigned as [H | H]; rewrite H; reflexivity.
Qed.

Lemma filteredBarangays_without_assignment_witness :
  filteredBarangays (Some Sample.unassigned) [Sample.BrgyA; Sample.BrgyB]
  = [Sample.BrgyA; Sample.BrgyB].
Proof.
  apply (filteredBarangays_without_assignment Sample.unassigned
           [Sample.BrgyA; Sample.BrgyB]).
  - reflexivity.
  - left. reflexivity.
Defined.

End StudentsPageFacts.

(** * Properties of the admin management page *)

Section AdminManagementPageFacts.

Import AdminManagementPage.

Example mount_as_master_admin :
  events (snd (AdminManagementPage Sample.services (Some Sample.root) Mount
                 (start [Sample.root; Sample.alice])))
  = [FetchBarangays; GetStoredUsers].
Proof. reflexivity. Qed.

Example rows_of_the_table :
  render {| admins := [Sample.root; Sample.alice]; isLoading := false;
            isCreateDialogOpen := false; isEditDialogOpen := false;
            editingAdmin := None; isSubmitting := false;
            submitError := None |}
  = [AddNewAccountButton; EditButton Sample.root;
     EditButton Sample.alice; DeleteButton "u1"].
Proof. reflexivity. Qed.

Lemma UserRole_eqb_eq (a b : auth.UserRole) :
  auth.UserRole_eqb a b = true <-> a = b.
Proof.
  destruct a, b; simpl; split; intros H; congruence.
Qed.


(** Once confirmed, the handler asks the service to delete whatever id it was
    given. *)
Lemma handleDeleteAdmin_asks_service {World : Type} (svc : Services World)
    (adminId : string) (r : Run World) :
  In (DeleteStoredUser adminId)
     (events (snd (handleDeleteAdmin svc adminId true r))).
Proof.
  unfold handleDeleteAdmin, bind, emit, await, loadAdmins, bind, await,
    setAdmins, modify, ret, emit. cbn.
  destruct (deleteStoredUser svc adminId (world r)) as [[e | [|]] w]; cbn;
    [ | destruct (getStoredUsers svc w) as [[e | users] w']; cbn | ];
    rewrite !in_app_iff; simpl; tauto.
Qed.






(** Running [loadData] only adds events. *)
Lemma loadData_appends {World : Type} (svc : Services World) (r : Run World) :
  exists more, events (snd (loadData svc r)) = (events r ++ more)%list.
Proof.
  unfold loadData, bind, setIsLoading, modify, await, loadAdmins, bind, await,
    setAdmins, modify, ret, emit. cbn.
  destruct (fetchBarangays svc (world r)) as [[e | []] w]; cbn.
  - exists [FetchBarangays]. reflexivity.
  - destruct (getStoredUsers svc w) as [[e | users] w']; cbn;
      eexists; rewrite <- ?app_assoc; reflexivity.
Qed.

(** Creating an account asks the service to register it, whoever is signed
    in. *)
Lemma handleCreateAdmin_asks_service {World : Type} (svc : Services World)
    (user : option auth.User) (data : auth.RegisterCredentials)
    (r : Run World) :
  In (Register data)
     (events (snd (AdminManagementPage svc user (SubmitCreate data) r))).
Proof.
  unfold AdminManagementPage, handleCreateAdmin, bind, setIsSubmitting,
    setSubmitError, setIsCreateDialogOpen, modify, await, loadAdmins, bind,
    await, setAdmins, modify, ret, emit. cbn.
  destruct (register svc data (world r)) as [[e | []] w]; cbn;
    [ | destruct (getStoredUsers svc w) as [[e | users] w']; cbn ];
    rewrite !in_app_iff; simpl; tauto.
Qed.

(** C8, as stated, at a signed-in regular admin: mounting the page loads the
    administrator accounts and puts the account controls on screen besides
    pushing the redirect, and submitting the create form registers the new
    account. *)
Lemma regular_admin_reaches_admin_management :
  let page := AdminManagementPage Sample.services (Some Sample.alice) in
  let mounted := snd (page Mount (start [Sample.root; Sample.alice])) in
  let created := snd (page (SubmitCreate Sample.newcomer) mounted) in
  auth.role Sample.alice = auth.admin
  /\ events mounted = [RouterPush "/dashboard"; FetchBarangays; GetStoredUsers]
  /\ admins (state mounted) = [Sample.root; Sample.alice]
  /\ render (state mounted)
     = [AddNewAccountButton; EditButton Sample.root;
        EditButton Sample.alice; DeleteButton "u1"]
  /\ events created
     = [RouterPush "/dashboard"; FetchBarangays; GetStoredUsers;
        Register Sample.newcomer; GetStoredUsers].
Proof.
  cbv zeta. repeat split; reflexivity.
Qed.

(** Editing asks the service to update the account being edited, whoever is
    signed in. *)
Lemma handleEditAdmin_asks_service {World : Type} (svc : Services World)
    (user : option auth.User) (data : EditForm) (editing : auth.User)
    (r : Run World) :
  editingAdmin (state r) = Some editing ->
  In (UpdateStoredUser data (auth._id editing))
     (events (snd (AdminManagementPage svc user (SubmitEdit data) r))).
Proof.
  intros Hediting.
  unfold AdminManagementPage, handleEditAdmin, loadAdmins, setAdmins,
    setIsSubmitting, setSubmitError, setIsEditDialogOpen, setEditingAdmin,
    bind, await, emit, modify, get, ret. cbn. rewrite Hediting. cbn.
  destruct (updateStoredUser svc data (auth._id editing) (world r))
    as [[e | [|]] w]; cbn;
    [ | destruct (getStoredUsers svc w) as [[e | users] w']; cbn | ];
    rewrite !in_app_iff; simpl; tauto.
Qed.

(** C8, amended.  For a signed-in user whose role is admin, the gate is the
    redirect and the sidebar: mounting the page, and every later change of
    the signed-in user to such an admin, pushes a redirect to "/dashboard",
    and the sidebar of the protected layout has no entry leading to
    "/admin".  Nothing else is refused: after the redirect is pushed the
    mount loads the barangays and the administrator accounts as for anyone
    else, every other action runs exactly as it does for any other viewer,
    and so a submitted create form is registered, a submitted edit form is
    sent as an update and a confirmed delete is sent to the service. *)
Theorem regular_admin_is_redirected :
  forall (World : Type) (svc : Services World) (u : auth.User)
         (r : Run World),
    auth.role u = auth.admin ->
    let pushed :=
      {| state := state r; world := world r;
         events := (events r ++ [RouterPush "/dashboard"])%list |} in
    AdminManagementPage svc (Some u) Mount r = loadData svc pushed
    /\ AdminManagementPage svc (Some u) UserChanged r = (tt, pushed)
    /\ (exists more,
          events (snd (AdminManagementPage svc (Some u) Mount r))
          = (events r ++ RouterPush "/dashboard" :: FetchBarangays :: more)%list)
    /\ ~ In "/admin"
         (map ProtectedLayout.href (ProtectedLayout.navItems (Some u)))
    /\ (forall (viewer : option auth.User) (a : Action),
          a <> Mount -> a <> UserChanged ->
          AdminManagementPage svc (Some u) a r
          = AdminManagementPage svc viewer a r)
    /\ (forall data,
          In (Register data)
             (events (snd (AdminManagementPage svc (Some u)
                             (SubmitCreate data) r))))
    /\ (forall data editing,
          editingAdmin (state r) = Some editing ->
          In (UpdateStoredUser data (auth._id editing))
             (events (snd (AdminManagementPage svc (Some u)
                             (SubmitEdit data) r))))
    /\ (forall adminId,
          In (DeleteStoredUser adminId)
             (events (snd (AdminManagementPage svc (Some u)
                             (Click (DeleteButton adminId) true) r)))).
Proof.
  intros World svc u r Hrole. cbv zeta.
  assert (Hmount : AdminManagementPage svc (Some u) Mount r
                   = loadData svc
                       {| state := state r; world := world r;
                          events := events r ++ [RouterPush "/dashboard"] |}).
  { unfold AdminManagementPage, redirectEffect. rewrite Hrole.
    cbn [negb auth.UserRole_eqb]. reflexivity. }
  split; [exact Hmount |].
  split.
  { unfold AdminManagementPage, redirectEffect. rewrite Hrole. reflexivity. }
  split.
  { rewrite Hmount.
    unfold loadData, loadAdmins, setAdmins, setIsLoading, bind, await, emit,
      modify, ret. cbn.
    destruct (fetchBarangays svc (world r)) as [[e | []] w]; cbn;
      [ | destruct (getStoredUsers svc w) as [[e | users] w']; cbn ];
      eexists; rewrite <- ?app_assoc; reflexivity. }
  split.
  { unfold ProtectedLayout.navItems. rewrite Hrole. simpl.
    intuition discriminate. }
  split.
  { intros viewer a Hmounted Hchanged.
    destruct a; try reflexivity; [contradiction Hmounted | contradiction Hchanged];
      reflexivity. }
  split; [intros data; apply handleCreateAdmin_asks_service |].
  split; [intros data editing; apply handleEditAdmin_asks_service |].
  intros adminId. apply handleDeleteAdmin_asks_service.
Qed.

Lemma regular_admin_is_redirected_witness :
  let r := start [Sample.root; Sample.alice] in
  let page := AdminManagementPage Sample.services (Some Sample.alice) in
  events (snd (page Mount r))
  = [RouterPush "/dashboard"; FetchBarangays; GetStoredUsers]
  /\ events (snd (page UserChanged r)) = [RouterPush "/dashboard"]
  /\ In (Register Sample.newcomer)
        (events (snd (page (SubmitCreate Sample.newcomer) r)))
  /\ In (DeleteStoredUser "u1")
        (events (snd (page (Click (DeleteButton "u1") true) r))).
Proof.
  cbv zeta.
  destruct (regular_admin_is_redirected (list auth.User) Sample.services
              Sample.alice (start [Sample.root; Sample.alice]) eq_refl)
    as [Hmount [Hchanged [_ [_ [_ [Hcreate [_ Hdelete]]]]]]].
  split; [rewrite Hmount; reflexivity |].
  split; [rewrite Hchanged; reflexivity |].
  split; [apply Hcreate | apply Hdelete].
Defined.

(** A master admin is not redirected, and finds the entry in the sidebar. *)
Lemma master_admin_stays (World : Type) (u : auth.User) (r : Run World) :
  auth.role u = auth.master_admin ->
  snd (redirectEffect (Some u) r) = r
  /\ In "/admin"
       (map ProtectedLayout.href (ProtectedLayout.navItems (Some u))).
Proof.
  intros Hrole. unfold redirectEffect, ProtectedLayout.navItems.
  rewrite Hrole. simpl. auto 10.
Qed.

End AdminManagementPageFacts.

(** * Further properties of the login route *)

Section LoginRouteAnswers.

Import LoginRoute.

(** Case analysis along the branches of [POST]. *)
Ltac POST_cases env req :=
  unfold POST;
  destruct (json req) as [?e | ?b]; [| 
  destruct (truthy (prop "email" _)) eqn:?Hemail; [|];
  [ destruct (truthy (prop "password" _)) eqn:?Hpassword; [|];
    [ cbn [negb];
      destruct (clientPromise env) as [?e | [?client |]] eqn:?Hclient; [| |];
      [ | destruct (find_users_by_email _ _) as [?e | [| ?u ?rest]] eqn:?Hfind;
          [| |];
          [ | | destruct (compareSync env _ _) as [?e | [|]] eqn:?Hcmp ] | ]
    | ]
  | ] ].

(** X1.  Every answer of the handler has one of the statuses 200, 400, 401,
    404, 500; it reports success exactly when the status is 200, which is
    exactly when it carries account data; every other answer carries an
    error message and no account data. *)
Theorem POST_answer_shape :
  forall (env : Env) (req : Request),
    let answer := fst (POST env req) in
    In (status answer) [200; 400; 401; 404; 500]%Z
    /\ (success (body answer) = true <-> status answer = 200%Z)
    /\ (success (body answer) = true <-> data (body answer) <> None)
    /\ (success (body answer) = false <-> error (body answer) <> None).
Proof.
  intros env req. cbv zeta.
  POST_cases env req; cbn;
    (split; [tauto |]);
    repeat split; intros; try discriminate; try congruence; try tauto.
Qed.

(** X2.  The [details] member is present exactly on the status-500 answers
    given in development: outside development no answer has it, and no
    answer other than a 500 ever has it. *)
Theorem POST_details_iff :
  forall (env : Env) (req : Request),
    let answer := fst (POST env req) in
    details (body answer) <> None
    <-> development env = true /\ status answer = 500%Z.
Proof.
  intros env req. cbv zeta.
  POST_cases env req; cbn; unfold dev_only;
    destruct (development env); cbn;
    split; intros H; try congruence; try (destruct H; congruence);
    try (split; reflexivity); try discriminate.
Qed.

(** X3.  The store is used in one fixed order: nothing, or the connection
    alone, or the connection followed by a single lookup whose filter is the
    [email] member of the body exactly as it was parsed (whatever its JSON
    type).  In particular there are never more than two store accesses. *)
Theorem POST_store_discipline :
  forall (env : Env) (req : Request),
    let accesses := filter is_store_access (snd (POST env req)) in
    (accesses = []
     \/ accesses = [AwaitClient]
     \/ exists b, json req = inr b
                  /\ accesses = [AwaitClient; FindUsers (prop "email" b)])
    /\ (store_call_count (snd (POST env req)) <= 2)%nat.
Proof.
  intros env req. cbv zeta. unfold store_call_count.
  unfold POST.
  destruct (json req) as [e | b]; [cbn; auto |].
  destruct (truthy (prop "email" b)); [| cbn; auto].
  destruct (truthy (prop "password" b)); [| cbn; auto].
  cbn [negb].
  destruct (clientPromise env) as [e | [client |]]; try (cbn; auto).
  assert (Hb : exists b0 : JSON, @inr Thrown JSON b = inr b0
             /\ [AwaitClient; FindUsers (prop "email" b)]
                = [AwaitClient; FindUsers (prop "email" b0)])
    by (exists b; split; reflexivity).
  destruct (find_users_by_email client (prop "email" b)) as [e | [| u rest]];
    try (cbn; auto).
  destruct (compareSync env (prop "password" b) (auth.password u))
    as [e | [|]]; cbn; auto.
Qed.

(** X4.  [NODE_ENV] changes nothing but [details]: under any two values of
    it, with the same store and comparer, a request gets the same status,
    success flag, error message and account data, and causes the same
    effects. *)
Theorem POST_mode_only_changes_details :
  forall (mode1 mode2 : option string)
         (connection : Try (option MongoClient))
         (comparer : Value -> string -> Try bool) (req : Request),
    let result1 := POST {| NODE_ENV := mode1; clientPromise := connection;
                           compareSync := comparer |} req in
    let result2 := POST {| NODE_ENV := mode2; clientPromise := connection;
                           compareSync := comparer |} req in
    status (fst result1) = status (fst result2)
    /\ success (body (fst result1)) = success (body (fst result2))
    /\ error (body (fst result1)) = error (body (fst result2))
    /\ data (body (fst result1)) = data (body (fst result2))
    /\ snd result1 = snd result2.
Proof.
  intros mode1 mode2 connection comparer req. cbv zeta.
  unfold POST. cbn [clientPromise compareSync].
  destruct (json req) as [e | b]; [repeat split |].
  destruct (truthy (prop "email" b)); [| repeat split].
  destruct (truthy (prop "password" b)); [| repeat split].
  cbn [negb].
  destruct connection as [e | [client |]];
    [repeat split | | repeat split].
  destruct (find_users_by_email client (prop "email" b)) as [e | [| u rest]];
    [repeat split | repeat split |].
  destruct (comparer (prop "password" b) (auth.password u)) as [e | [|]];
    repeat split.
Qed.

(** X5.  With both fields given: when the connection is rejected, or
    yields no client, the answer is 500 with the fixed connection message,
    the rejection (or the missing-client error) is logged, and no lookup is
    attempted; when the lookup itself fails, the answer is 500 with the
    fixed query message after the one lookup.  In each case the failure's
    own text (its message for an [Error], its string form otherwise) is the
    [details], in development only. *)
Theorem POST_store_failure :
  forall (env : Env) (b : JSON),
    truthy (prop "email" b) = true ->
    truthy (prop "password" b) = true ->
    let result := POST env {| json := inr b |} in
    let connection_answer (dbError : Thrown) :=
      (failure_with_details 500
         "Database connection failed. Please check your MongoDB configuration."
         (if development env then Some (errorDetails dbError) else None),
       [AwaitClient; ConsoleError "MongoDB connection error:" dbError]) in
    (forall dbError,
       clientPromise env = inl dbError ->
       result = connection_answer dbError)
    /\
    (clientPromise env = inr None ->
       result = connection_answer
                  (ErrorObject "Error" "MongoDB client is not initialized" None)
       /\ details (body (fst result))
          = if development env
            then Some "MongoDB client is not initialized" else None)
    /\
    (forall client queryError,
       clientPromise env = inr (Some client) ->
       find_users_by_email client (prop "email" b) = inl queryError ->
       result
       = (failure_with_details 500 "Database query failed."
            (if development env then Some (errorDetails queryError) else None),
          [AwaitClient; FindUsers (prop "email" b);
           ConsoleError "MongoDB query error:" queryError])).
Proof.
  intros env b Hemail Hpassword. cbv zeta. split; [| split].
  - intros dbError Hclient. unfold POST. cbn [json].
    rewrite Hemail, Hpassword. cbn [negb]. rewrite Hclient. reflexivity.
  - intros Hclient. unfold POST. cbn [json].
    rewrite Hemail, Hpassword. cbn [negb]. rewrite Hclient.
    split; [reflexivity |]. cbn. unfold dev_only.
    destruct (development env); reflexivity.
  - intros client queryError Hclient Hfind.
    rewrite (POST_after_validation env client b Hclient Hemail Hpassword).
    rewrite Hfind. reflexivity.
Qed.

Lemma POST_store_failure_witness :
  POST (Sample.offline "development")
    (Sample.credentials (JString "a@x.com") (JString "pw1"))
  = (failure_with_details 500
       "Database connection failed. Please check your MongoDB configuration."
       (Some "ECONNREFUSED"),
     [AwaitClient;
      ConsoleError "MongoDB connection error:" (NonError "ECONNREFUSED")])
  /\ fst (POST (Sample.broken "production")
            (Sample.credentials (JString "a@x.com") (JString "pw1")))
     = failure_with_details 500 "Database query failed." None.
Proof.
  split.
  - apply (proj1 (POST_store_failure (Sample.offline "development")
             (JObject [("email", JString "a@x.com");
                       ("password", JString "pw1")]) eq_refl eq_refl)
             (NonError "ECONNREFUSED") eq_refl).
  - unfold Sample.credentials.
    rewrite (proj2 (proj2 (POST_store_failure (Sample.broken "production")
             (JObject [("email", JString "a@x.com");
                       ("password", JString "pw1")]) eq_refl eq_refl))
             _ (ErrorObject "MongoServerError" "cursor killed"
                  (Some "at Cursor.next")) eq_refl eq_refl).
    reflexivity.
Defined.

(** X6.  The email is validated first: a body that is not an object, or
    whose [email] is missing or falsy, gets "Email is required" whatever its
    password; "Password is required" is only given to a body with a truthy
    email. *)
Theorem POST_validation_order :
  forall (env : Env) (b : JSON),
    ((forall members, b <> JObject members) ->
       POST env {| json := inr b |} = (failure 400 "Email is required", []))
    /\ (truthy (prop "email" b) = false ->
        POST env {| json := inr b |} = (failure 400 "Email is required", []))
    /\ (fst (POST env {| json := inr b |})
        = failure 400 "Password is required" ->
        truthy (prop "email" b) = true
        /\ truthy (prop "password" b) = false).
Proof.
  intros env b.
  assert (Hfalsy : truthy (prop "email" b) = false ->
            POST env {| json := inr b |}
            = (failure 400 "Email is required", [])).
  { intros H. unfold POST. cbn [json]. rewrite H. reflexivity. }
  split; [| split].
  - intros Hshape. apply Hfalsy.
    destruct b; try reflexivity. exfalso. apply (Hshape members). reflexivity.
  - exact Hfalsy.
  - unfold POST. cbn [json].
    destruct (truthy (prop "email" b)); [| intros H; discriminate H].
    destruct (truthy (prop "password" b)); [| intros _; split; reflexivity].
    cbn [negb].
    destruct (clientPromise env) as [e | [client |]];
      try (intros H; discriminate H).
    destruct (find_users_by_email client (prop "email" b))
      as [e | [| u rest]]; try (intros H; discriminate H).
    destruct (compareSync env (prop "password" b) (auth.password u))
      as [e | [|]]; intros H; discriminate H.
Qed.

Lemma POST_validation_order_witness :
  POST (Sample.env "production" [Sample.alice]) {| json := inr JNull |}
  = (failure 400 "Email is required", [])
  /\ POST (Sample.env "production" [Sample.alice])
       {| json := inr (JObject [("password", JString "pw1")]) |}
     = (failure 400 "Email is required", []).
Proof.
  split.
  - apply (proj1 (POST_validation_order
                    (Sample.env "production" [Sample.alice]) JNull)).
    intros members H. discriminate H.
  - apply (proj1 (proj2 (POST_validation_order
                           (Sample.env "production" [Sample.alice])
                           (JObject [("password", JString "pw1")])))).
    reflexivity.
Defined.

(** X7.  With both fields given and the lookup answering, the status tells
    whether the email is stored: it is 404 exactly when the lookup found no
    account, and 200, 401 or 500 when it found one. *)
Theorem POST_status_reveals_account :
  forall (env : Env) (client : MongoClient) (b : JSON)
         (found : list auth.User),
    clientPromise env = inr (Some client) ->
    truthy (prop "email" b) = true ->
    truthy (prop "password" b) = true ->
    find_users_by_email client (prop "email" b) = inr found ->
    let answer := fst (POST env {| json := inr b |}) in
    (status answer = 404%Z <-> found = [])
    /\ (found <> [] -> In (status answer) [200; 401; 500]%Z).
Proof.
  intros env client b found Hclient Hemail Hpassword Hfind. cbv zeta.
  rewrite (POST_after_validation env client b Hclient Hemail Hpassword), Hfind.
  destruct found as [| u rest].
  - split; [split; reflexivity | intros H; contradiction H; reflexivity].
  - destruct (compareSync env (prop "password" b) (auth.password u))
      as [e | [|]]; cbn;
      (split; [split; intros H; discriminate H | intros _; tauto]).
Qed.

Lemma POST_status_reveals_account_witness :
  (status (fst (POST (Sample.env "production" [Sample.alice])
                  (Sample.credentials (JString "a@x.com") (JString "guess"))))
   = 404%Z <-> [Sample.alice] = [])
  /\ ([Sample.alice] <> [] ->
      In (status (fst (POST (Sample.env "production" [Sample.alice])
                         (Sample.credentials (JString "a@x.com")
                            (JString "guess")))))
         [200; 401; 500]%Z).
Proof.
  apply (POST_status_reveals_account
           (Sample.env "production" [Sample.alice])
           (Sample.collection [Sample.alice])
           (JObject [("email", JString "a@x.com");
                     ("password", JString "guess")])
           [Sample.alice]); reflexivity.
Defined.

End LoginRouteAnswers.

(** * Further properties of the admin management page *)

Section AdminManagementPageBehaviour.

Import AdminManagementPage.

Context {World : Type} (svc : Services World).

(** Unfolds page code down to the calls of the services. *)
Ltac run_page :=
  unfold AdminManagementPage, onClick, handleDeleteAdmin, handleCreateAdmin,
    handleEditAdmin, openEditDialog, loadData, redirectEffect, loadAdmins,
    setAdmins, setIsLoading, setIsCreateDialogOpen, setIsEditDialogOpen,
    setEditingAdmin, setIsSubmitting, setSubmitError,
    bind, await, emit, modify, get, ret;
  cbn.

(** X8.  Deleting leaves the page as it was unless the service reports
    success: when the confirmation is declined nothing is asked of the
    service at all, and when the service answers false or rejects, the
    component state is unchanged and the list is not fetched again. *)
Theorem handleDeleteAdmin_without_success :
  forall (adminId : string) (confirmed : bool) (r : Run World),
    let after := snd (handleDeleteAdmin svc adminId confirmed r) in
    (confirmed = false ->
       state after = state r /\ world after = world r
       /\ events after
          = (events r
             ++ [Confirm "Are you sure you want to delete this admin account?"])%list)
    /\ (confirmed = true ->
        fst (deleteStoredUser svc adminId (world r)) <> inr true ->
        state after = state r
        /\ world after = snd (deleteStoredUser svc adminId (world r))
        /\ (In GetStoredUsers (events after) -> In GetStoredUsers (events r))).
Proof.
  intros adminId confirmed r. cbv zeta. split.
  - intros ->. run_page. repeat split.
  - intros ->. run_page.
    destruct (deleteStoredUser svc adminId (world r)) as [[e | [|]] w]; cbn;
      intros Hno.
    + repeat split. rewrite !in_app_iff. cbn. intuition discriminate.
    + contradiction Hno. reflexivity.
    + repeat split. rewrite !in_app_iff. cbn. intuition discriminate.
Qed.

(** X9.  After a successful delete the table shows what the service then
    returns as the stored users; if that fetch is rejected, the old list
    stays on screen although the account is gone. *)
Theorem handleDeleteAdmin_reloads :
  forall (adminId : string) (r : Run World) (w : World),
    deleteStoredUser svc adminId (world r) = (inr true, w) ->
    let after := snd (handleDeleteAdmin svc adminId true r) in
    admins (state after)
    = match fst (getStoredUsers svc w) with
      | inr users => users
      | inl _ => admins (state r)
      end
    /\ world after = snd (getStoredUsers svc w).
Proof.
  intros adminId r w Hdelete. cbv zeta. run_page. rewrite Hdelete. cbn.
  destruct (getStoredUsers svc w) as [[e | users] w']; cbn; split; reflexivity.
Qed.

(** X10.  Creating an account always ends with the submit flag cleared.  If
    the service rejects, its message (or "Failed to create admin" for a
    non-[Error]) is shown, the dialog keeps its state and the list is
    untouched; if it resolves, no error is shown and the dialog is closed,
    even when the following reload of the list fails. *)
Theorem handleCreateAdmin_outcome :
  forall (data : auth.RegisterCredentials) (r : Run World),
    let after := snd (handleCreateAdmin svc data r) in
    isSubmitting (state after) = false
    /\ match fst (register svc data (world r)) with
       | inl error =>
           submitError (state after)
           = Some (messageOr "Failed to create admin" error)
           /\ isCreateDialogOpen (state after) = isCreateDialogOpen (state r)
           /\ admins (state after) = admins (state r)
       | inr _ =>
           submitError (state after) = None
           /\ isCreateDialogOpen (state after) = false
       end.
Proof.
  intros data r. cbv zeta. run_page.
  destruct (register svc data (world r)) as [[e | []] w]; cbn.
  - repeat split.
  - destruct (getStoredUsers svc w) as [[e | users] w']; cbn; repeat split.
Qed.

(** X11.  Submitting the edit form with no account being edited does
    nothing.  Otherwise the update is sent for the id of the account being
    edited and the submit flag ends cleared; when the service answers false,
    the dialog stays open on the same account and no error is shown; when it
    answers true, the dialog is closed and no account is being edited. *)
Theorem handleEditAdmin_outcome :
  forall (data : EditForm) (r : Run World),
    let after := snd (handleEditAdmin svc data r) in
    match editingAdmin (state r) with
    | None => after = r
    | Some editing =>
        (exists more,
           events after
           = (events r ++ UpdateStoredUser data (auth._id editing) :: more)%list)
        /\ isSubmitting (state after) = false
        /\ match fst (updateStoredUser svc data (auth._id editing) (world r)) with
           | inr false =>
               editingAdmin (state after) = Some editing
               /\ isEditDialogOpen (state after) = isEditDialogOpen (state r)
               /\ submitError (state after) = None
               /\ admins (state after) = admins (state r)
           | inr true =>
               editingAdmin (state after) = None
               /\ isEditDialogOpen (state after) = false
               /\ submitError (state after) = None
           | inl error =>
               editingAdmin (state after) = Some editing
               /\ submitError (state after)
                  = Some (messageOr "Failed to update admin" error)
           end
    end.
Proof.
  intros data r. cbv zeta. run_page.
  destruct (editingAdmin (state r)) as [editing |] eqn:Hediting; cbn.
  - destruct (updateStoredUser svc data (auth._id editing) (world r))
      as [[e | [|]] w]; cbn.
    + split; [eexists; reflexivity |]. rewrite Hediting. repeat split.
    + destruct (getStoredUsers svc w) as [[e | users] w']; cbn;
        (split; [eexists; rewrite <- ?app_assoc; reflexivity |]);
        repeat split.
    + split; [eexists; reflexivity |]. rewrite Hediting. repeat split.
  - destruct r; reflexivity.
Qed.

(** X12.  Clicking the edit button of a row writes that account to the
    console, opens the dialog on it and asks nothing of the services;
    submitting the form next sends the update for the id of that row's
    account, whichever account was being edited before. *)
Theorem edit_click_then_submit :
  forall (user : option auth.User) (admin : auth.User) (confirmed : bool)
         (data : EditForm) (r : Run World),
    let opened :=
      snd (AdminManagementPage svc user (Click (EditButton admin) confirmed) r) in
    let after := snd (AdminManagementPage svc user (SubmitEdit data) opened) in
    editingAdmin (state opened) = Some admin
    /\ isEditDialogOpen (state opened) = true
    /\ events opened = (events r ++ [ConsoleLog admin])%list
    /\ world opened = world r
    /\ exists more,
         events after
         = (events r ++ ConsoleLog admin
              :: UpdateStoredUser data (auth._id admin) :: more)%list.
Proof.
  intros user admin confirmed data r. cbv zeta. run_page.
  repeat split.
  destruct (updateStoredUser svc data (auth._id admin) (world r))
    as [[e | [|]] w]; cbn;
    [ | destruct (getStoredUsers svc w) as [[e | users] w']; cbn | ];
    eexists; rewrite <- ?app_assoc; reflexivity.
Qed.

(** X13.  The loading flag after [loadData] is cleared exactly when
    [fetchBarangays] resolved: a rejected load of the administrators still
    ends the spinner, while a rejected [fetchBarangays] leaves it on and the
    administrators are never requested. *)
Theorem loadData_spinner :
  forall (r : Run World),
    let after := snd (loadData svc r) in
    match fst (fetchBarangays svc (world r)) with
    | inr _ => isLoading (state after) = false
    | inl _ =>
        isLoading (state after) = true
        /\ admins (state after) = admins (state r)
        /\ events after = (events r ++ [FetchBarangays])%list
    end.
Proof.
  intros r. cbv zeta. run_page.
  destruct (fetchBarangays svc (world r)) as [[e | []] w]; cbn.
  - repeat split.
  - destruct (getStoredUsers svc w) as [[e | users] w']; reflexivity.
Qed.

(** X14.  Mounting pushes the redirect to "/dashboard" exactly when a user
    is signed in and is a regular admin: a master admin is not redirected,
    and neither is a visitor for whom the auth store holds no user. *)
Theorem mount_redirects_iff :
  forall (user : option auth.User) (r : Run World),
    (forall href, ~ In (RouterPush href) (events r)) ->
    let after := snd (AdminManagementPage svc user Mount r) in
    (In (RouterPush "/dashboard") (events after)
     <-> exists u, user = Some u /\ auth.role u = auth.admin)
    /\ (forall href, In (RouterPush href) (events after) ->
          href = "/dashboard").
Proof.
  intros user r Hnone. cbv zeta.
  assert (Hload : forall r0 href,
            In (RouterPush href) (events (snd (loadData svc r0))) ->
            In (RouterPush href) (events r0)).
  { intros r0 href. run_page.
    destruct (fetchBarangays svc (world r0)) as [[e | []] w]; cbn;
      [ | destruct (getStoredUsers svc w) as [[e | users] w']; cbn ];
      rewrite !in_app_iff; cbn; intuition discriminate. }
  unfold AdminManagementPage, redirectEffect.
  destruct user as [u |]; [destruct (auth.role u) eqn:Hrole |];
    cbn [negb auth.UserRole_eqb]; unfold bind at 1; unfold emit, ret;
    cbn [fst snd].
  - split.
    + split.
      * intros H. apply Hload in H. exfalso. exact (Hnone _ H).
      * intros [u' [Hu Hr]]. injection Hu as <-. congruence.
    + intros href H. apply Hload in H. exfalso. exact (Hnone _ H).
  - split.
    + split.
      * intros _. exists u. split; [reflexivity | exact Hrole].
      * intros _.
        destruct (loadData_appends svc
          {| state := state r; world := world r;
             events := events r ++ [RouterPush "/dashboard"] |})
          as [more Hmore].
        rewrite Hmore. cbn [events]. rewrite !in_app_iff. cbn. tauto.
    + intros href H. apply Hload in H. cbn [events] in H.
      apply in_app_iff in H. destruct H as [H | [H | []]].
      * exfalso. exact (Hnone _ H).
      * injection H as <-. reflexivity.
  - split.
    + split.
      * intros H. apply Hload in H. exfalso. exact (Hnone _ H).
      * intros [u' [Hu _]]. discriminate Hu.
    + intros href H. apply Hload in H. exfalso. exact (Hnone _ H).
Qed.

(** X15.  No handler navigates: a submitted form or a clicked control never
    pushes a route; only the redirect effect does, which runs on mount and
    again when the signed-in user changes, where it pushes "/dashboard" for
    an admin and nothing for anyone else.  Clicking "Add New Account" causes
    no event; clicking an edit button writes the account to the console and
    nothing else; neither touches the state behind the services. *)
Theorem handlers_do_not_navigate :
  forall (user : option auth.User) (a : Action) (r : Run World),
    let after := snd (AdminManagementPage svc user a r) in
    (a <> Mount -> a <> UserChanged ->
       forall href, In (RouterPush href) (events after) ->
                    In (RouterPush href) (events r))
    /\ (a = UserChanged ->
        state after = state r /\ world after = world r
        /\ events after
           = (events r
              ++ match user with
                 | Some u =>
                     match auth.role u with
                     | auth.admin => [RouterPush "/dashboard"]
                     | auth.master_admin => []
                     end
                 | None => []
                 end)%list)
    /\ (forall confirmed,
          a = Click AddNewAccountButton confirmed ->
          events after = events r /\ world after = world r)
    /\ (forall admin confirmed,
          a = Click (EditButton admin) confirmed ->
          events after = (events r ++ [ConsoleLog admin])%list
          /\ world after = world r).
Proof.
  intros user a r. cbv zeta. split; [| split; [| split]].
  - intros Hmount Hchanged href.
    destruct a as [| | data | data | [| admin | adminId] confirmed].
    + contradiction Hmount. reflexivity.
    + contradiction Hchanged. reflexivity.
    + run_page.
      destruct (register svc data (world r)) as [[e | []] w]; cbn;
        [ | destruct (getStoredUsers svc w) as [[e | users] w']; cbn ];
        rewrite !in_app_iff; cbn; intuition discriminate.
    + run_page.
      destruct (editingAdmin (state r)) as [editing |]; cbn; [| tauto].
      destruct (updateStoredUser svc data (auth._id editing) (world r))
        as [[e | [|]] w]; cbn;
        [ | destruct (getStoredUsers svc w) as [[e | users] w']; cbn | ];
        rewrite !in_app_iff; cbn; intuition discriminate.
    + run_page. tauto.
    + run_page. rewrite in_app_iff. cbn. intuition discriminate.
    + run_page. destruct confirmed; cbn.
      * destruct (deleteStoredUser svc adminId (world r)) as [[e | [|]] w];
          cbn;
          [ | destruct (getStoredUsers svc w) as [[e | users] w']; cbn | ];
          rewrite !in_app_iff; cbn; intuition discriminate.
      * rewrite !in_app_iff; cbn; intuition discriminate.
  - intros ->. unfold AdminManagementPage, redirectEffect, emit, ret.
    destruct user as [u |]; [destruct (auth.role u) |]; cbn;
      rewrite ?app_nil_r; repeat split.
  - intros confirmed ->. run_page. split; reflexivity.
  - intros admin confirmed ->. run_page. split; reflexivity.
Qed.

End AdminManagementPageBehaviour.

Section AdminManagementTable.

Import AdminManagementPage.

Lemma flat_map_rowControls_length (l : list auth.User) :
  length (flat_map rowControls l)
  = length l
    + length (filter (fun a => negb (auth.UserRole_eqb (auth.role a)
                                       auth.master_admin)) l).
Proof.
  induction l as [| a rest IH]; [reflexivity |].
  cbn [flat_map filter]. rewrite length_app, IH. unfold rowControls.
  destruct (negb (auth.UserRole_eqb (auth.role a) auth.master_admin));
    cbn [length app]; lia.
Qed.

(** X16.  While the list is loading the page offers the "Add New Account"
    button alone.  Once loaded, every listed account, master admins
    included, has an edit button, and the page has one control for the
    button, one per account for editing, and one per account that is not a
    master admin for deleting. *)
Theorem render_controls :
  forall (s : State),
    (isLoading s = true -> render s = [AddNewAccountButton])
    /\ (isLoading s = false ->
        (forall admin, In admin (admins s) -> In (EditButton admin) (render s))
        /\ length (render s)
           = 1 + length (admins s)
             + length (filter
                         (fun a => negb (auth.UserRole_eqb (auth.role a)
                                           auth.master_admin))
                         (admins s))).
Proof.
  intros s. unfold render. split; intros ->.
  - reflexivity.
  - split.
    + intros admin Hin. right. apply in_flat_map. exists admin.
      split; [exact Hin | left; reflexivity].
    + cbn [length]. rewrite flat_map_rowControls_length. reflexivity.
Qed.

Lemma render_controls_witness :
  render AdminManagementPage.initialState = [AddNewAccountButton]
  /\ length (render (Sample.loaded [Sample.root; Sample.alice])) = 4.
Proof.
  split.
  - apply (proj1 (render_controls AdminManagementPage.initialState)).
    reflexivity.
  - apply (proj2 (render_controls
                    (Sample.loaded [Sample.root; Sample.alice]))).
    reflexivity.
Defined.

Lemma getBarangayName_unlisted (barangays : list types.Barangay)
    (barangayId : string) :
  (forall b, In b barangays -> types._id b <> barangayId) ->
  getBarangayName barangays barangayId = "Unknown".
Proof.
  intros Hnone. unfold getBarangayName.
  destruct (find (fun b => String.eqb (types._id b) barangayId) barangays)
    as [b |] eqn:Hfind; [| reflexivity].
  apply find_some in Hfind. destruct Hfind as [Hin Heq].
  apply String.eqb_eq in Heq. exfalso. exact (Hnone b Hin Heq).
Qed.

(** X17.  [getBarangayName] answers "Unknown" for an id that no listed
    barangay has, and otherwise the name of the first listed barangay with
    that id. *)
Theorem getBarangayName_lookup :
  forall (barangays : list types.Barangay) (barangayId : string),
    ((forall b, In b barangays -> types._id b <> barangayId) ->
       getBarangayName barangays barangayId = "Unknown")
    /\ (forall before b after,
          barangays = (before ++ b :: after)%list ->
          types._id b = barangayId ->
          (forall c, In c before -> types._id c <> barangayId) ->
          getBarangayName barangays barangayId = types.name b).
Proof.
  intros barangays barangayId. split.
  - apply getBarangayName_unlisted.
  - unfold getBarangayName. intros before b after -> Hid Hbefore.
    induction before as [| c before IH]; cbn [app find].
    + rewrite Hid, String.eqb_refl. reflexivity.
    + destruct (String.eqb_spec (types._id c) barangayId) as [Hc | Hc].
      * exfalso. exact (Hbefore c (or_introl eq_refl) Hc).
      * apply IH. intros d Hd. apply Hbefore. right. exact Hd.
Qed.

Lemma getBarangayName_lookup_witness :
  getBarangayName [Sample.BrgyA; Sample.BrgyB] "BrgyC" = "Unknown"
  /\ getBarangayName [Sample.BrgyA; Sample.BrgyB] "BrgyB" = "Barangay B".
Proof.
  split.
  - apply (proj1 (getBarangayName_lookup [Sample.BrgyA; Sample.BrgyB] "BrgyC")).
    intros b [<- | [<- | []]]; discriminate.
  - apply (proj2 (getBarangayName_lookup [Sample.BrgyA; Sample.BrgyB] "BrgyB")
             [Sample.BrgyA] Sample.BrgyB [] eq_refl eq_refl).
    intros c [<- | []]. discriminate.
Defined.

(** X18.  The "Assigned Barangay" cell reads "All Barangays" for every
    master admin, whatever assignment is stored with the account, and for
    every admin without an assignment; for an admin with an assignment it is
    the name found for that id, "Unknown" when the barangay is not listed. *)
Theorem assignedBarangayCell_cases :
  forall (barangays : list types.Barangay) (account : auth.User),
    (auth.role account = auth.master_admin ->
       assignedBarangayCell barangays account = "All Barangays")
    /\ (auth.assignedBarangayId account = None
        \/ auth.assignedBarangayId account = Some "" ->
        assignedBarangayCell barangays account = "All Barangays")
    /\ (forall a, auth.role account = auth.admin ->
          auth.assignedBarangayId account = Some a -> a <> "" ->
          assignedBarangayCell barangays account
          = getBarangayName barangays a
          /\ ((forall b, In b barangays -> types._id b <> a) ->
              assignedBarangayCell barangays account = "Unknown")).
Proof.
  intros barangays account. unfold assignedBarangayCell. split; [| split].
  - intros ->. reflexivity.
  - intros [-> | ->]; cbn; rewrite andb_false_r; reflexivity.
  - intros a -> -> Hne. cbn.
    destruct (String.eqb_spec a ""); [contradiction |]. cbn.
    split; [reflexivity |].
    apply getBarangayName_unlisted.
Qed.

Lemma assignedBarangayCell_cases_witness :
  assignedBarangayCell [Sample.BrgyA; Sample.BrgyB]
    (Sample.user "m2" "m@x.com" "h" auth.master_admin (Some "BrgyA"))
  = "All Barangays"
  /\ assignedBarangayCell [Sample.BrgyA; Sample.BrgyB] Sample.unassigned
     = "All Barangays"
  /\ assignedBarangayCell [Sample.BrgyB] Sample.alice = "Unknown".
Proof.
  split; [| split].
  - apply (proj1 (assignedBarangayCell_cases [Sample.BrgyA; Sample.BrgyB]
             (Sample.user "m2" "m@x.com" "h" auth.master_admin
                (Some "BrgyA")))).
    reflexivity.
  - apply (proj1 (proj2 (assignedBarangayCell_cases
             [Sample.BrgyA; Sample.BrgyB] Sample.unassigned))).
    left. reflexivity.
  - apply (proj2 (proj2 (assignedBarangayCell_cases [Sample.BrgyB]
             Sample.alice)) "BrgyA" eq_refl eq_refl).
    + discriminate.
    + intros b [<- | []]. discriminate.
Defined.

End AdminManagementTable.

(** The behaviour of the page, run on the sample data. *)

Section AdminManagementPageRuns.

Import AdminManagementPage.

Lemma handleDeleteAdmin_without_success_witness :
  let r := {| state := Sample.loaded [Sample.root; Sample.alice];
              world := [Sample.root; Sample.alice]; events := [] |} in
  world (snd (handleDeleteAdmin Sample.services "u1" false r))
  = [Sample.root; Sample.alice]
  /\ state (snd (handleDeleteAdmin Sample.refusing "u1" true r)) = state r.
Proof.
  cbv zeta. split.
  - apply (proj1 (handleDeleteAdmin_without_success Sample.services "u1" false
       {| state := Sample.loaded [Sample.root; Sample.alice];
          world := [Sample.root; Sample.alice]; events := [] |}) eq_refl).
  - apply (proj2 (handleDeleteAdmin_without_success Sample.refusing "u1" true
       {| state := Sample.loaded [Sample.root; Sample.alice];
          world := [Sample.root; Sample.alice]; events := [] |}) eq_refl).
    discriminate.
Defined.

Lemma handleDeleteAdmin_reloads_witness :
  let r := {| state := Sample.loaded [Sample.root; Sample.alice];
              world := [Sample.root; Sample.alice]; events := [] |} in
  admins (state (snd (handleDeleteAdmin Sample.services "u1" true r)))
  = [Sample.root]
  /\ world (snd (handleDeleteAdmin Sample.services "u1" true r))
     = [Sample.root].
Proof.
  cbv zeta.
  apply (handleDeleteAdmin_reloads Sample.services "u1"
    {| state := Sample.loaded [Sample.root; Sample.alice];
       world := [Sample.root; Sample.alice]; events := [] |}
    [Sample.root]).
  reflexivity.
Defined.

Lemma mount_redirects_iff_witness :
  (In (RouterPush "/dashboard")
      (events (snd (AdminManagementPage Sample.services None Mount
                      (start [Sample.root]))))
   <-> exists u, @None auth.User = Some u /\ auth.role u = auth.admin)
  /\ (forall href,
        In (RouterPush href)
           (events (snd (AdminManagementPage Sample.services None Mount
                           (start [Sample.root])))) ->
        href = "/dashboard").
Proof.
  apply (mount_redirects_iff Sample.services None (start [Sample.root])).
  intros href H. exact H.
Defined.

Lemma handlers_do_not_navigate_witness :
  let r := start [Sample.root; Sample.alice] in
  let page := AdminManagementPage Sample.services (Some Sample.alice) in
  events (snd (page UserChanged r)) = [RouterPush "/dashboard"]
  /\ events (snd (page (Click (EditButton Sample.root) true) r))
     = [ConsoleLog Sample.root]
  /\ (forall href,
        In (RouterPush href)
           (events (snd (page (SubmitCreate Sample.newcomer) r))) ->
        In (RouterPush href) (events r)).
Proof.
  cbv zeta. split; [| split].
  - apply (proj1 (proj2 (handlers_do_not_navigate Sample.services
             (Some Sample.alice) UserChanged
             (start [Sample.root; Sample.alice]))) eq_refl).
  - apply (proj2 (proj2 (proj2 (handlers_do_not_navigate Sample.services
             (Some Sample.alice) (Click (EditButton Sample.root) true)
             (start [Sample.root; Sample.alice])))) Sample.root true eq_refl).
  - apply (proj1 (handlers_do_not_navigate Sample.services
             (Some Sample.alice) (SubmitCreate Sample.newcomer)
             (start [Sample.root; Sample.alice]))); discriminate.
Defined.

End AdminManagementPageRuns.

(** * Further properties of the students page *)

Section StudentsPageFiltering.

Import StudentsPage.

(** X19.  Filtering never adds a barangay and never reorders: what is shown
    is always drawn from the list given, is no longer than it, and
    filtering what is shown again changes nothing.  With no signed-in user
    the whole list is shown. *)
Theorem filteredBarangays_never_adds :
  forall (user : option auth.User) (barangays : list types.Barangay),
    (forall b, In b (filteredBarangays user barangays) -> In b barangays)
    /\ (length (filteredBarangays user barangays) <= length barangays)%nat
    /\ filteredBarangays user (filteredBarangays user barangays)
       = filteredBarangays user barangays
    /\ (user = None -> filteredBarangays user barangays = barangays).
Proof.
  intros user barangays. unfold filteredBarangays.
  destruct user as [u |]; [| repeat split; auto].
  destruct (restricted (Some u)).
  - split; [| split; [| split]].
    + intros b Hb. apply filter_In in Hb. tauto.
    + apply filter_length_le.
    + induction barangays as [| b rest IH]; [reflexivity |].
      cbn [filter].
      destruct (match auth.assignedBarangayId u with
                | Some a => String.eqb (types._id b) a
                | None => false
                end) eqn:Hkeep.
      * cbn [filter]. rewrite Hkeep, IH. reflexivity.
      * exact IH.
    + intros H. discriminate H.
  - repeat split; auto.
Qed.

(** X20.  An admin assigned to a barangay that is not in the list is shown
    no barangay at all. *)
Theorem filteredBarangays_unlisted_assignment :
  forall (u : auth.User) (a : string) (barangays : list types.Barangay),
    auth.role u = auth.admin ->
    auth.assignedBarangayId u = Some a ->
    a <> "" ->
    (forall b, In b barangays -> types._id b <> a) ->
    filteredBarangays (Some u) barangays = [].
Proof.
  intros u a barangays Hrole Hassigned Hne Hnone.
  rewrite (filteredBarangays_admin u a barangays Hrole Hassigned Hne).
  induction barangays as [| b rest IH]; [reflexivity |].
  cbn [filter].
  destruct (String.eqb_spec (types._id b) a) as [Hb | Hb].
  - exfalso. exact (Hnone b (or_introl eq_refl) Hb).
  - apply IH. intros c Hc. apply Hnone. right. exact Hc.
Qed.

Lemma filteredBarangays_unlisted_assignment_witness :
  filteredBarangays (Some Sample.alice) [Sample.BrgyB] = [].
Proof.
  apply (filteredBarangays_unlisted_assignment Sample.alice "BrgyA"
           [Sample.BrgyB] eq_refl eq_refl).
  - discriminate.
  - intros b [<- | []]. discriminate.
Defined.

End StudentsPageFiltering.

(** * Properties of the protected layout *)

Section ProtectedLayoutFacts.

Import ProtectedLayout.

(** X21.  The sidebar always holds the four common entries, and it holds an
    entry leading to "/admin" exactly when a master admin is signed in. *)
Theorem navItems_admin_entry_iff :
  forall (user : option auth.User),
    (forall item, In item commonNavItems -> In item (navItems user))
    /\ (In "/admin" (map href (navItems user))
        <-> exists u, user = Some u /\ auth.role u = auth.master_admin).
Proof.
  intros user. unfold navItems.
  destruct user as [u |]; [destruct (auth.role u) eqn:Hrole |];
    cbn [auth.UserRole_eqb].
  - split.
    + intros item Hin. apply in_or_app. left. exact Hin.
    + split.
      * intros _. exists u. split; [reflexivity | exact Hrole].
      * intros _. cbn. tauto.
  - split; [auto |]. split.
    + cbn. intuition discriminate.
    + intros [u' [Hu Hr]]. injection Hu as <-. congruence.
  - split; [auto |]. split.
    + cbn. intuition discriminate.
    + intros [u' [Hu _]]. discriminate Hu.
Qed.

(** X22.  The header title is always the name of an entry of the user's own
    sidebar: it is "Dashboard" for every path that none of the entries leads
    to, so at "/admin" it reads "Admin Management" for a master admin and
    "Dashboard" for everyone else. *)
Theorem pageTitle_in_sidebar :
  forall (user : option auth.User) (pathname : string),
    In (pageTitle user pathname) (map name (navItems user))
    /\ ((forall item, In item (navItems user) -> href item <> pathname) ->
        pageTitle user pathname = "Dashboard")
    /\ (pageTitle user "/admin" = "Admin Management"
        <-> exists u, user = Some u /\ auth.role u = auth.master_admin).
Proof.
  intros user pathname. split; [| split].
  - unfold pageTitle, navItems, commonNavItems, masterAdminNavItems.
    destruct user as [[? ? ? ? ? ? ? ? ? [|] ? ? ?] |];
      cbn [auth.role auth.UserRole_eqb app find href name];
      repeat (match goal with
              | |- context [String.eqb ?a pathname] =>
                  destruct (String.eqb a pathname)
              end; cbn [find href name]);
      cbn; auto 10.
  - intros Hnone. unfold pageTitle.
    destruct (find (fun item => String.eqb (href item) pathname)
                (navItems user)) as [item |] eqn:Hfind; [| reflexivity].
    apply find_some in Hfind. destruct Hfind as [Hin Heq].
    apply String.eqb_eq in Heq. exfalso. exact (Hnone item Hin Heq).
  - unfold pageTitle, navItems.
    destruct user as [u |]; [destruct (auth.role u) eqn:Hrole |]; cbn.
    + split; [| reflexivity].
      intros _. exists u. split; [reflexivity | exact Hrole].
    + split; [intros H; discriminate H |].
      intros [u' [Hu Hr]]. injection Hu as <-. congruence.
    + split; [intros H; discriminate H |].
      intros [u' [Hu _]]. discriminate Hu.
Qed.

(** X23.  The sidebar profile reads "Master Admin" exactly for a signed-in
    master admin and "Regular Admin" otherwise, also when nobody is signed
    in; a barangay is shown after it only for an admin, and then it is that
    admin's non-empty assignment. *)
Theorem sidebar_profile :
  forall (user : option auth.User),
    (roleLabel user = "Master Admin"
     <-> exists u, user = Some u /\ auth.role u = auth.master_admin)
    /\ (roleLabel user = "Master Admin" \/ roleLabel user = "Regular Admin")
    /\ (forall a, barangayTag user = Some a ->
          a <> ""
          /\ exists u, user = Some u /\ auth.role u = auth.admin
                       /\ auth.assignedBarangayId u = Some a).
Proof.
  intros user. unfold roleLabel, barangayTag.
  destruct user as [u |]; [destruct (auth.role u) eqn:Hrole |]; cbn.
  - split; [| split].
    + split; [| reflexivity].
      intros _. exists u. split; [reflexivity | exact Hrole].
    + left. reflexivity.
    + intros a H. discriminate H.
  - split; [| split].
    + split; [intros H; discriminate H |].
      intros [u' [Hu Hr]]. injection Hu as <-. congruence.
    + right. reflexivity.
    + intros a. destruct (auth.assignedBarangayId u) as [s |] eqn:Hassigned;
        cbn; [| intros H; discriminate H].
      destruct (String.eqb_spec s "") as [Hs | Hs]; cbn;
        intros H; [discriminate H |].
      injection H as <-. split; [exact Hs |].
      exists u. repeat split; assumption.
  - split; [| split].
    + split; [intros H; discriminate H |].
      intros [u' [Hu _]]. discriminate Hu.
    + right. reflexivity.
    + intros a H. discriminate H.
Qed.

(** X24.  Logging out sends the user to "/login" exactly when the store's
    logout resolved; when it is rejected the error is logged, the user stays
    where they are and the rejection does not leave the handler. *)
Theorem handleLogout_navigates_iff :
  forall (World : Type) (logout : World -> Try unit * World) (w : World),
    let result := handleLogout logout w in
    fst result = snd (logout w)
    /\ (In (RouterPush "/login") (snd result)
        <-> exists v, fst (logout w) = inr v)
    /\ (forall error, fst (logout w) = inl error ->
          snd result = [Logout; ConsoleError "Logout error:" error]).
Proof.
  intros World logout w. cbv zeta. unfold handleLogout.
  destruct (logout w) as [[error | v] w']; cbn.
  - split; [reflexivity |]. split.
    + split; [intuition discriminate |].
      intros [v H]. discriminate H.
    + intros error' H. injection H as <-. reflexivity.
  - split; [reflexivity |]. split.
    + split; [intros _; exists v; reflexivity | tauto].
    + intros error H. discriminate H.
Qed.

End ProtectedLayoutFacts.

(** * Properties of the login form *)

Section LoginFormFacts.

Import LoginForm.

(** X25.  Submitting clears the previous error, then logs in with the form
    values unchanged, and then either reloads the page, when the login
    resolved, or writes the rejection to the console, when it was rejected:
    the page reloads exactly when the login resolved, and a rejected login
    is logged, causes no reload and does not leave the handler. *)
Theorem onSubmit_reloads_iff :
  forall (Values World : Type)
         (login : Values -> World -> Try unit * World)
         (data : Values) (w : World),
    let result := onSubmit login data w in
    fst result = snd (login data w)
    /\ snd result
       = [ClearError; Login data;
          match fst (login data w) with
          | inr _ => Reload
          | inl error => ConsoleError "Login error:" error
          end]
    /\ (In Reload (snd result) <-> exists v, fst (login data w) = inr v)
    /\ (forall error,
          In (ConsoleError "Login error:" error) (snd result)
          <-> fst (login data w) = inl error).
Proof.
  intros Values World login data w. cbv zeta. unfold onSubmit.
  destruct (login data w) as [[error | v] w']; cbn.
  - split; [reflexivity |]. split; [reflexivity |]. split.
    + split; [intuition discriminate |]. intros [v H]. discriminate H.
    + intros error'. split.
      * intros [H | [H | [H | []]]]; try discriminate H.
        injection H as <-. reflexivity.
      * intros H. injection H as <-. auto.
  - split; [reflexivity |]. split; [reflexivity |]. split.
    + split; [intros _; exists v; reflexivity | tauto].
    + intros error. split; [intuition discriminate |].
      intros H. discriminate H.
Qed.

End LoginFormFacts.
